(** * generate_feed.py: a shallow embedding and its specification

    The program scans [blogs/] for markdown files, asks git for the date of
    the first commit of each, extracts a title and a description with three
    regular expressions, sorts the records newest first and renders an
    RSS 2.0 document.

    Text is modelled by [string]; a character is its code point, and the
    model covers code points below 256.  The interpreter's library
    functions the program calls ([str.strip], [str.split], [str.replace],
    [re.search], [re.findall], [datetime.strptime], [datetime.strftime],
    [list.sort], [xml.sax.saxutils.escape]) are embedded next to the
    program, following CPython 3.11. *)

From Stdlib Require Import List ZArith NArith Lia Bool Sorted Permutation.
From Stdlib Require Import Ascii String.
Import ListNotations.
Open Scope string_scope.

(** ** Exceptions and results *)

Inductive exn : Type :=
| CalledProcessError (returncode : Z)
| FileNotFoundError
| PermissionError
| OSError
| UnicodeDecodeError
| ValueError.

Inductive result (A : Type) : Type :=
| Ok (a : A)
| Raised (e : exn).
Arguments Ok {A} a.
Arguments Raised {A} e.

Definition bind {A B : Type} (m : result A) (f : A -> result B) : result B :=
  match m with
  | Ok a => f a
  | Raised e => Raised e
  end.

Notation "x <- m ;; k" := (bind m (fun x => k))
  (at level 61, m at next level, right associativity).

(** ** Strings as the interpreter handles them *)

Module PyStr.

Definition code (c : ascii) : N := N_of_ascii c.

Definition in_range (lo hi : N) (c : ascii) : bool :=
  ((lo <=? code c) && (code c <=? hi))%N.

(** [str.isspace] on one character; also the class [\s] of [re] on [str]
    patterns.  Below 256 these are TAB..CR, FS..US, SPACE, NEL and NBSP. *)
Definition isspace (c : ascii) : bool :=
  in_range 9 13 c || in_range 28 32 c || (code c =? 133)%N || (code c =? 160)%N.

Definition isdigit (c : ascii) : bool := in_range 48 57 c.

Definition newline : ascii := "010"%char.

Definition is_newline (c : ascii) : bool := Ascii.eqb c newline.

Fixpoint lstrip (s : string) : string :=
  match s with
  | "" => ""
  | String c t => if isspace c then lstrip t else s
  end.

Fixpoint rstrip (s : string) : string :=
  match s with
  | "" => ""
  | String c t =>
      match rstrip t with
      | "" => if isspace c then "" else String c ""
      | t' => String c t'
      end
  end.

(** [s.strip()] *)
Definition strip (s : string) : string := rstrip (lstrip s).

(** [s.split(sep)] for a one-character separator. *)
Fixpoint split (sep : ascii) (s : string) : list string :=
  match s with
  | "" => [""]
  | String c t =>
      if Ascii.eqb c sep then "" :: split sep t
      else match split sep t with
           | w :: ws => String c w :: ws
           | [] => [String c ""]
           end
  end.

(** [s.startswith(sub)] *)
Fixpoint startswith (sub s : string) : bool :=
  match sub with
  | "" => true
  | String a sub' =>
      match s with
      | "" => false
      | String b s' => Ascii.eqb a b && startswith sub' s'
      end
  end.

Fixpoint replace_from (old new : string) (skip : nat) (s : string) : string :=
  match s with
  | "" => ""
  | String c t =>
      match skip with
      | S n => replace_from old new n t
      | O =>
          if startswith old s
          then new ++ replace_from old new (String.length old - 1) t
          else String c (replace_from old new 0 t)
      end
  end.

(** [s.replace(old, new)] for a non-empty [old]: occurrences are replaced
    left to right, without overlap. *)
Definition replace (old new s : string) : string := replace_from old new 0 s.

Fixpoint take (n : nat) (s : string) : string :=
  match n, s with
  | S n', String c t => String c (take n' t)
  | _, _ => ""
  end.

Fixpoint drop (n : nat) (s : string) : string :=
  match n, s with
  | S n', String _ t => drop n' t
  | _, _ => s
  end.

(** [s[a:b]] for non-negative bounds. *)
Definition slice (a b : nat) (s : string) : string := take (b - a) (drop a s).

(** [s.find(sub)] *)
Fixpoint find (sub s : string) : option nat :=
  if startswith sub s then Some 0%nat
  else match s with
       | "" => None
       | String _ t => option_map S (find sub t)
       end.

Fixpoint last (s : string) : option ascii :=
  match s with
  | "" => None
  | String c "" => Some c
  | String _ t => last t
  end.

Fixpoint forallb (p : ascii -> bool) (s : string) : bool :=
  match s with
  | "" => true
  | String c t => p c && forallb p t
  end.

Definition nonempty (s : string) : bool :=
  match s with "" => false | _ => true end.

Fixpoint digits_value (acc : Z) (s : string) : Z :=
  match s with
  | "" => acc
  | String c t => digits_value (10 * acc + (Z.of_N (code c) - 48)) t
  end.

(** [int(s)] on the strings the program can pass: surrounding white space
    is ignored, and anything but a non-empty run of digits is a
    [ValueError]. *)
Definition int (s : string) : option Z :=
  let t := strip s in
  if nonempty t && forallb isdigit t then Some (digits_value 0 t) else None.

Definition digit_char (d : Z) : ascii := ascii_of_N (Z.to_N (48 + d mod 10)).

Fixpoint decimal_fuel (fuel : nat) (n : Z) (acc : string) : string :=
  match fuel with
  | O => acc
  | S f =>
      let acc' := String (digit_char n) acc in
      if (n <? 10)%Z then acc' else decimal_fuel f (n / 10) acc'
  end.

(** [str(n)] for [n >= 0]. *)
Definition decimal (n : Z) : string := decimal_fuel (S (Z.to_nat n)) n "".

(** ["%02d" % n] for [0 <= n < 100]. *)
Definition pad2 (n : Z) : string :=
  String (digit_char (n / 10)) (String (digit_char n) "").

(** Lexicographic comparison by code point, as [str.__lt__] does. *)
Definition leb (a b : string) : bool := String.leb a b.

End PyStr.

(** ** Regular expressions: the backtracking matcher of [re] *)

Module Regex.

Inductive regex : Type :=
| Eps
| Chr (p : ascii -> bool)              (* a character class *)
| Cat (r1 r2 : regex)
| Alt (r1 r2 : regex)                   (* [r1|r2], [r1] tried first *)
| Star (greedy : bool) (r : regex)      (* [r*] or [r*?] *)
| Bol                                   (* [^] under MULTILINE *)
| Eol                                   (* [$] under MULTILINE *)
| Group (name : string) (r : regex).    (* a capturing group *)

Definition Plus (greedy : bool) (r : regex) : regex := Cat r (Star greedy r).
Definition Opt (r : regex) : regex := Alt r Eps.
Definition Char (c : ascii) : regex := Chr (Ascii.eqb c).

Fixpoint Lit (s : string) : regex :=
  match s with
  | "" => Eps
  | String c t => Cat (Char c) (Lit t)
  end.

(** [.] and [[^\n]] without DOTALL *)
Definition not_newline (c : ascii) : bool := negb (PyStr.is_newline c).

Record mstate : Type := MState {
  prev : option ascii;            (* the character before the position *)
  rest : string;                  (* the text from the position on *)
  caps : list (string * string)   (* captures, the latest first *)
}.

Definition at_bol (s : mstate) : bool :=
  match prev s with
  | None => true
  | Some c => PyStr.is_newline c
  end.

Definition at_eol (s : mstate) : bool :=
  match rest s with
  | "" => true
  | String c _ => PyStr.is_newline c
  end.

Definition consumed (s s' : mstate) : string :=
  PyStr.take (String.length (rest s) - String.length (rest s')) (rest s).

Section Matcher.
Context {A : Type}.

Definition cont : Type := mstate -> option A.

Fixpoint star_loop (body : mstate -> cont -> option A) (greedy : bool)
    (fuel : nat) (s : mstate) (k : cont) : option A :=
  match fuel with
  | O => k s
  | S fuel' =>
      let again (_ : unit) :=
        body s (fun s' =>
                  if (String.length (rest s') <? String.length (rest s))%nat
                  then star_loop body greedy fuel' s' k
                  else None) in
      if greedy
      then match again tt with Some x => Some x | None => k s end
      else match k s with Some x => Some x | None => again tt end
  end.

(** [rmatch r s k]: the first way, in the matcher's priority order, to
    match [r] at [s] such that the continuation [k] accepts the state
    reached. *)
Fixpoint rmatch (r : regex) (s : mstate) (k : cont) : option A :=
  match r with
  | Eps => k s
  | Chr p =>
      match rest s with
      | "" => None
      | String c t => if p c then k (MState (Some c) t (caps s)) else None
      end
  | Cat r1 r2 => rmatch r1 s (fun s' => rmatch r2 s' k)
  | Alt r1 r2 =>
      match rmatch r1 s k with
      | Some x => Some x
      | None => rmatch r2 s k
      end
  | Star greedy r' => star_loop (rmatch r') greedy (String.length (rest s)) s k
  | Bol => if at_bol s then k s else None
  | Eol => if at_eol s then k s else None
  | Group name r' =>
      rmatch r' s (fun s' =>
        k (MState (prev s') (rest s') ((name, consumed s s') :: caps s')))
  end.
End Matcher.

Record re_match : Type := ReMatch {
  m_start : nat;
  m_end : nat;
  m_text : string;                   (* [group(0)] *)
  m_groups : list (string * string)
}.

Fixpoint lookup (name : string) (l : list (string * string)) : option string :=
  match l with
  | [] => None
  | (n, v) :: l' => if String.eqb n name then Some v else lookup name l'
  end.

(** [m.group(name)]; a group that took no part in the match is [None]. *)
Definition group (name : string) (m : re_match) : option string :=
  lookup name (m_groups m).

Definition match_at (r : regex) (p : option ascii) (pos : nat) (s : string)
  : option re_match :=
  let s0 := MState p s [] in
  match rmatch r s0 Some with
  | Some s' =>
      let w := consumed s0 s' in
      Some (ReMatch pos (pos + String.length w) w (caps s'))
  | None => None
  end.

Fixpoint search_from (r : regex) (p : option ascii) (pos : nat) (s : string)
  : option re_match :=
  match match_at r p pos s with
  | Some m => Some m
  | None =>
      match s with
      | "" => None
      | String c t => search_from r (Some c) (S pos) t
      end
  end.

(** [re.search(r, s, re.MULTILINE)] *)
Definition search (r : regex) (s : string) : option re_match :=
  search_from r None 0 s.

(** [re.match(r, s)] *)
Definition match_ (r : regex) (s : string) : option re_match :=
  match_at r None 0 s.

(** The scan of [re.findall]: [skip] characters are still covered by the
    previous match; a match is sought at each other position. *)
Fixpoint findall_from (r : regex) (p : option ascii) (skip : nat) (s : string)
  : list string :=
  let here :=
    match skip with
    | O => match_at r p 0 s
    | S _ => None
    end in
  match s with
  | "" => match here with Some m => [m_text m] | None => [] end
  | String c t =>
      match here with
      | Some m => m_text m :: findall_from r (Some c) (String.length (m_text m) - 1) t
      | None => findall_from r (Some c) (skip - 1) t
      end
  end.

(** [re.findall(r, s, re.MULTILINE)] for a pattern without capturing
    groups whose matches are never empty. *)
Definition findall (r : regex) (s : string) : list string :=
  findall_from r None 0 s.

End Regex.

(** ** Dates: [datetime.strptime] and [datetime.strftime] *)

Module DateTime.
Import Regex.

(** A [datetime]; [utcoffset] is the offset of its fixed-offset [timezone]
    in microseconds, or [None] for a naive value. *)
Record datetime : Type := DT {
  year : Z; month : Z; day : Z;
  hour : Z; minute : Z; second : Z;
  utcoffset : option Z
}.

Definition cls (lo hi : ascii) : regex :=
  Chr (PyStr.in_range (PyStr.code lo) (PyStr.code hi)).
Definition digit : regex := Chr PyStr.isdigit.
Definition space : regex := Chr PyStr.isspace.

(** The table of [_strptime.TimeRE], for the directives of this program. *)
Definition directive (d : ascii) : option regex :=
  if Ascii.eqb d "Y" then
    Some (Group "Y" (Cat digit (Cat digit (Cat digit digit))))
  else if Ascii.eqb d "m" then
    Some (Group "m" (Alt (Cat (Char "1") (cls "0" "2"))
                    (Alt (Cat (Char "0") (cls "1" "9")) (cls "1" "9"))))
  else if Ascii.eqb d "d" then
    Some (Group "d" (Alt (Cat (Char "3") (cls "0" "1"))
                    (Alt (Cat (cls "1" "2") digit)
                    (Alt (Cat (Char "0") (cls "1" "9"))
                    (Alt (cls "1" "9") (Cat (Char " ") (cls "1" "9")))))))
  else if Ascii.eqb d "H" then
    Some (Group "H" (Alt (Cat (Char "2") (cls "0" "3"))
                    (Alt (Cat (cls "0" "1") digit) digit)))
  else if Ascii.eqb d "M" then
    Some (Group "M" (Alt (Cat (cls "0" "5") digit) digit))
  else if Ascii.eqb d "S" then
    Some (Group "S" (Alt (Cat (Char "6") (cls "0" "1"))
                    (Alt (Cat (cls "0" "5") digit) digit)))
  else if Ascii.eqb d "z" then
    (* [+-]\d\d:?[0-5]\d(:?[0-5]\d(\.\d{1,6})?)?|(?-i:Z) *)
    let upto6 :=
      Cat digit (Opt (Cat digit (Opt (Cat digit (Opt (Cat digit
        (Opt (Cat digit (Opt digit))))))))) in
    let secs :=
      Cat (Opt (Char ":")) (Cat (cls "0" "5") (Cat digit
        (Opt (Cat (Char ".") upto6)))) in
    Some (Group "z"
      (Alt (Cat (Chr (fun x => Ascii.eqb x "+" || Ascii.eqb x "-"))
             (Cat digit (Cat digit (Cat (Opt (Char ":"))
               (Cat (cls "0" "5") (Cat digit (Opt secs)))))))
           (Char "Z")))
  else None.

(** [TimeRE.pattern]: a run of white space of the format becomes [\s+], a
    directive its regular expression, any other character itself ([ws] says
    that the previous character was white space).  The formats of this
    program hold no letter outside directives, so IGNORECASE plays no
    part. *)
Fixpoint pattern_from (ws : bool) (fmt : string) : option regex :=
  match fmt with
  | "" => Some Eps
  | String c t =>
      if PyStr.isspace c then
        if ws then pattern_from true t
        else option_map (Cat (Plus true space)) (pattern_from true t)
      else if Ascii.eqb c "%" then
        match t with
        | "" => None
        | String d t' =>
            match directive d, pattern_from false t' with
            | Some r, Some r' => Some (Cat r r')
            | _, _ => None
            end
        end
      else option_map (Cat (Char c)) (pattern_from false t)
  end.

Definition pattern (fmt : string) : option regex := pattern_from false fmt.

Definition is_leap (y : Z) : bool :=
  ((y mod 4 =? 0) && (negb (y mod 100 =? 0) || (y mod 400 =? 0)))%Z.

Definition days_in_month (y m : Z) : Z :=
  if (m =? 2)%Z then (if is_leap y then 29 else 28)
  else if ((m =? 4) || (m =? 6) || (m =? 9) || (m =? 11))%Z then 30
  else 31.

Definition days_before_year (y : Z) : Z :=
  let p := (y - 1)%Z in (p * 365 + p / 4 - p / 100 + p / 400)%Z.

Fixpoint days_before_month_fuel (fuel : nat) (y m : Z) : Z :=
  match fuel with
  | O => 0
  | S f =>
      if (m <=? 1)%Z then 0%Z
      else (days_in_month y (m - 1) + days_before_month_fuel f y (m - 1))%Z
  end.

Definition days_before_month (y m : Z) : Z := days_before_month_fuel 12 y m.

(** [date.toordinal()] *)
Definition toordinal (y m d : Z) : Z :=
  (days_before_year y + days_before_month y m + d)%Z.

(** [date.weekday()], Monday being 0 *)
Definition weekday (dt : datetime) : Z :=
  ((toordinal (year dt) (month dt) (day dt) + 6) mod 7)%Z.

Definition valid_date (y m d : Z) : bool :=
  ((1 <=? y) && (y <=? 9999) && (1 <=? m) && (m <=? 12) && (1 <=? d)
   && (d <=? days_in_month y m))%Z.

Definition valid_time (h mi s : Z) : bool :=
  ((0 <=? h) && (h <=? 23) && (0 <=? mi) && (mi <=? 59) && (0 <=? s)
   && (s <=? 59))%Z.

Definition day_microseconds : Z := 24 * 3600 * 1000000.

(** [timezone(offset)] accepts offsets strictly between -24h and 24h. *)
Definition valid_offset (o : option Z) : bool :=
  match o with
  | None => true
  | Some us => ((- day_microseconds <? us) && (us <? day_microseconds))%Z
  end.

Definition field (name : string) (default : Z) (m : re_match) : option Z :=
  match group name m with
  | None => Some default
  | Some w => PyStr.int w
  end.

Fixpoint zeros (n : nat) : string :=
  match n with
  | O => ""
  | S n' => String "0" (zeros n')
  end.

Definition starts_with_colon_at (i : nat) (z : string) : bool :=
  String.eqb (PyStr.slice i (S i) z) ":".

(** The [%z] branch of [_strptime._strptime]: the offset in microseconds,
    or [None] where the library raises [ValueError]. *)
Definition parse_z (z0 : string) : option Z :=
  if String.eqb z0 "Z" then Some 0%Z
  else
    let norm :=
      if starts_with_colon_at 3 z0 then
        let z := PyStr.take 3 z0 ++ PyStr.drop 4 z0 in
        if (5 <? String.length z)%nat then
          if starts_with_colon_at 5 z
          then Some (PyStr.take 5 z ++ PyStr.drop 6 z)
          else None
        else Some z
      else Some z0 in
    match norm with
    | None => None
    | Some z =>
        let secs := PyStr.slice 5 7 z in
        let remainder := PyStr.drop 8 z in
        match PyStr.int (PyStr.slice 1 3 z), PyStr.int (PyStr.slice 3 5 z),
              (if PyStr.nonempty secs then PyStr.int secs else Some 0%Z),
              PyStr.int (remainder ++ zeros (6 - String.length remainder))
        with
        | Some hours, Some minutes, Some seconds, Some fraction =>
            let gmtoff := (hours * 3600 + minutes * 60 + seconds)%Z in
            let total := (gmtoff * 1000000 + fraction)%Z in
            Some (if PyStr.startswith "-" z then (- total)%Z else total)
        | _, _, _, _ => None
        end
    end.

Definition convert (m : re_match) : option datetime :=
  match field "Y" 1900 m, field "m" 1 m, field "d" 1 m,
        field "H" 0 m, field "M" 0 m, field "S" 0 m with
  | Some y, Some mo, Some d, Some h, Some mi, Some s =>
      let tz :=
        match group "z" m with
        | None => Some None
        | Some z => option_map Some (parse_z z)
        end in
      match tz with
      | Some o =>
          if valid_date y mo d && valid_time h mi s && valid_offset o
          then Some (DT y mo d h mi s o)
          else None
      | None => None
      end
  | _, _, _, _, _, _ => None
  end.

(** [datetime.strptime(data, fmt)]: the text must match the pattern of the
    format from its start, nothing may remain, and the fields must make a
    date.  Every failure is a [ValueError], rendered here as [None]. *)
Definition strptime (data fmt : string) : option datetime :=
  match pattern fmt with
  | None => None
  | Some r =>
      match match_ r data with
      | None => None
      | Some m =>
          if negb (m_end m =? String.length data)%nat then None
          else convert m
      end
  end.

Definition day_abbr (wd : Z) : string :=
  nth (Z.to_nat wd) ["Mon"; "Tue"; "Wed"; "Thu"; "Fri"; "Sat"; "Sun"] "".

Definition month_abbr (m : Z) : string :=
  nth (Z.to_nat (m - 1))
    ["Jan"; "Feb"; "Mar"; "Apr"; "May"; "Jun";
     "Jul"; "Aug"; "Sep"; "Oct"; "Nov"; "Dec"] "".

Definition pad6 (n : Z) : string :=
  let d := PyStr.decimal n in zeros (6 - String.length d) ++ d.

(** [%z]: empty for a naive value, else [+HHMM], followed by [SS] and
    [.ffffff] when the offset is not a whole number of minutes. *)
Definition format_z (o : option Z) : string :=
  match o with
  | None => ""
  | Some us =>
      let a := Z.abs us in
      let total := (a / 1000000)%Z in
      let frac := (a mod 1000000)%Z in
      let ss := (total mod 60)%Z in
      (if (us <? 0)%Z then "-" else "+")
      ++ PyStr.pad2 (total / 3600) ++ PyStr.pad2 (total / 60 mod 60)
      ++ (if (frac =? 0)%Z
          then (if (ss =? 0)%Z then "" else PyStr.pad2 ss)
          else PyStr.pad2 ss ++ "." ++ pad6 frac)
  end.

(** One directive of [strftime] in the C locale.  [%Y] is the year in
    decimal (four digits from year 1000 on); a directive the program does
    not use is copied. *)
Definition format_directive (d : ascii) (dt : datetime) : string :=
  if Ascii.eqb d "a" then day_abbr (weekday dt)
  else if Ascii.eqb d "b" then month_abbr (month dt)
  else if Ascii.eqb d "d" then PyStr.pad2 (day dt)
  else if Ascii.eqb d "m" then PyStr.pad2 (month dt)
  else if Ascii.eqb d "Y" then PyStr.decimal (year dt)
  else if Ascii.eqb d "H" then PyStr.pad2 (hour dt)
  else if Ascii.eqb d "M" then PyStr.pad2 (minute dt)
  else if Ascii.eqb d "S" then PyStr.pad2 (second dt)
  else if Ascii.eqb d "z" then format_z (utcoffset dt)
  else String "%" (String d "").

(** [dt.strftime(fmt)] *)
Fixpoint strftime (dt : datetime) (fmt : string) : string :=
  match fmt with
  | "" => ""
  | String c t =>
      if Ascii.eqb c "%" then
        match t with
        | "" => "%"
        | String d t' => format_directive d dt ++ strftime dt t'
        end
      else String c (strftime dt t)
  end.

(** What [datetime.now()] reads from the system clock: local civil time. *)
Record wall_clock : Type := Clock {
  c_year : Z; c_month : Z; c_day : Z;
  c_hour : Z; c_minute : Z; c_second : Z
}.

(** [datetime.now()] without a [tz] argument is naive. *)
Definition now (c : wall_clock) : datetime :=
  DT (c_year c) (c_month c) (c_day c) (c_hour c) (c_minute c) (c_second c) None.

End DateTime.

(** ** The program *)

Module Feed.
Import Regex DateTime.

Definition nl : string := String PyStr.newline "".
Definition dq : string := String "034"%char "".

Record config : Type := Config {
  cfg_title : string;
  cfg_link : string;
  cfg_description : string;
  cfg_language : string;
  cfg_email : string;
  cfg_author : string
}.

Definition RSS_CONFIG : config := {|
  cfg_title := "Nipuna Perera - Blog";
  cfg_link := "https://github.com/nipunap/nipunap";
  cfg_description := "Senior Staff Database Reliability Engineer specializing in managing complex database environments, ensuring high availability and performance at scale.";
  cfg_language := "en-us";
  cfg_email := "nipunap@gmail.com";
  cfg_author := "Nipuna Perera"
|}.

(** How a child process ends: it ran and exited with a status, or it could
    not be started (the executable is missing, not permitted, ...). *)
Inductive proc_outcome : Type :=
| Completed (returncode : Z) (stdout : string)
| NotStarted (e : exn).

(** What the program reads from its environment. *)
Record world : Type := World {
  blogs_exists : bool;                  (* [Path("blogs").exists()] *)
  rglob_md : list string;               (* [blogs_dir.rglob("*.md")], in order *)
  git_log : string -> proc_outcome;     (* [git log --format=%ai --reverse -- p] *)
  read_text : string -> result string   (* [open(p, encoding="utf-8").read()] *)
}.

(** [subprocess.run(..., check=True)]: the captured standard output, or
    [CalledProcessError] on a non-zero exit status, or the error of the
    launch. *)
Definition subprocess_run (o : proc_outcome) : result string :=
  match o with
  | Completed rc out =>
      if (rc =? 0)%Z then Ok out else Raised (CalledProcessError rc)
  | NotStarted e => Raised e
  end.

Definition get_git_date (w : world) (file_path : string)
  : result (option string) :=
  match subprocess_run (git_log w file_path) with
  | Ok stdout =>
      let dates := PyStr.split PyStr.newline (PyStr.strip stdout) in
      match dates with
      | d :: _ => if PyStr.nonempty d then Ok (Some d) else Ok None
      | [] => Ok None
      end
  | Raised (CalledProcessError _) => Ok None
  | Raised e => Raised e
  end.

Definition format_rfc822_date (date_str : option string) : option string :=
  match date_str with
  | None => None
  | Some s =>
      if negb (PyStr.nonempty s) then None
      else match strptime s "%Y-%m-%d %H:%M:%S %z" with
           | Some dt => Some (strftime dt "%a, %d %b %Y %H:%M:%S %z")
           | None => None
           end
  end.

(** [^#\s+(.+)$] *)
Definition title_re : regex :=
  Cat Bol (Cat (Char "#") (Cat (Plus true (Chr PyStr.isspace))
    (Cat (Group "1" (Plus true (Chr not_newline))) Eol))).

(** [\*\*Goal:\*\*\s*(.+?)(?:\n|$)] *)
Definition goal_re : regex :=
  Cat (Lit "**Goal:**") (Cat (Star true (Chr PyStr.isspace))
    (Cat (Group "1" (Plus false (Chr not_newline)))
      (Alt (Char PyStr.newline) Eol))).

(** [^[A-Z][^\n]+(?:\n[^\n]+)*] *)
Definition paragraph_re : regex :=
  Cat Bol (Cat (DateTime.cls "A" "Z") (Cat (Plus true (Chr not_newline))
    (Star true (Cat (Char PyStr.newline) (Plus true (Chr not_newline)))))).

(** [m.group(1)]; group 1 takes part in every match of the two patterns
    that have one. *)
Definition group1 (m : re_match) : string :=
  match group "1" m with
  | Some g => g
  | None => ""
  end.

Fixpoint rfind_char (c : ascii) (s : string) : option nat :=
  match s with
  | "" => None
  | String x t =>
      match rfind_char c t with
      | Some i => Some (S i)
      | None => if Ascii.eqb x c then Some 0%nat else None
      end
  end.

(** [Path(p).stem]: the last component, without its last suffix, for a
    path as [rglob] yields it: without a separator at its end and without
    a component [.]. *)
Definition stem (file_path : string) : string :=
  let name := List.last (PyStr.split "/" file_path) "" in
  match rfind_char "." name with
  | Some i =>
      if ((0 <? i) && (i <? String.length name - 1))%nat
      then PyStr.take i name
      else name
  | None => name
  end.

Definition extract_title_and_description (w : world) (file_path : string)
  : string * string :=
  match read_text w file_path with
  | Ok content =>
      let title :=
        match search title_re content with
        | Some m => PyStr.strip (group1 m)
        | None => stem file_path
        end in
      let description :=
        match search goal_re content with
        | Some m => Some (PyStr.strip (group1 m))
        | None =>
            match findall paragraph_re content with
            | p :: _ => Some (PyStr.take 200 (PyStr.strip p))
            | [] => None
            end
        end in
      let description :=
        match description with
        | Some d =>
            if PyStr.nonempty d then d
            else "Read the full article: " ++ title
        | None => "Read the full article: " ++ title
        end in
      (title, description)
  | Raised _ => (stem file_path, "")
  end.

Record post : Type := Post {
  path : string;
  rel_path : string;
  title : string;
  description : string;
  date : option string
}.

(** The sort key [x["date"] or ""]. *)
Definition sort_key (p : post) : string :=
  match date p with
  | Some d => if PyStr.nonempty d then d else ""
  | None => ""
  end.

Section Sort.
Context {A : Type} (key : A -> string).

Fixpoint insert (x : A) (l : list A) : list A :=
  match l with
  | [] => [x]
  | y :: l' =>
      if PyStr.leb (key x) (key y) then x :: l else y :: insert x l'
  end.

(** A stable ascending sort.  [list.sort] is stable, and a list has one
    stable ascending arrangement, so this is what it computes. *)
Fixpoint stable_sort (l : list A) : list A :=
  match l with
  | [] => []
  | x :: l' => insert x (stable_sort l')
  end.

(** [l.sort(key=key, reverse=True)]: the list is reversed, sorted
    ascending and reversed again. *)
Definition sort_reverse (l : list A) : list A :=
  rev (stable_sort (rev l)).
End Sort.

(** The body of the loop of [find_blog_posts].  The paths of [rglob] are
    relative to the working directory, so [relative_to(Path("."))] leaves
    them as they are. *)
Definition post_of_file (w : world) (md_file : string) : result post :=
  git_date <- get_git_date w md_file ;;
  let (t, d) := extract_title_and_description w md_file in
  Ok (Post md_file md_file t d git_date).

Fixpoint collect (w : world) (files : list string) : result (list post) :=
  match files with
  | [] => Ok []
  | f :: fs =>
      p <- post_of_file w f ;;
      ps <- collect w fs ;;
      Ok (p :: ps)
  end.

Definition find_blog_posts (w : world) : result (list post) :=
  if negb (blogs_exists w) then Ok []
  else
    blog_posts <- collect w (rglob_md w) ;;
    Ok (sort_reverse sort_key blog_posts).

(** [xml.sax.saxutils.escape] *)
Definition escape (data : string) : string :=
  PyStr.replace "<" "&lt;"
    (PyStr.replace ">" "&gt;" (PyStr.replace "&" "&amp;" data)).

(** [xml.sax.saxutils.unescape], the inverse the library ships. *)
Definition unescape (data : string) : string :=
  PyStr.replace "&amp;" "&"
    (PyStr.replace "&gt;" ">" (PyStr.replace "&lt;" "<" data)).

(** How an f-string shows a value that may be [None]. *)
Definition show (o : option string) : string :=
  match o with
  | Some s => s
  | None => "None"
  end.

Definition truthy (o : option string) : bool :=
  match o with
  | Some s => PyStr.nonempty s
  | None => false
  end.

Definition github_url (p : post) : string :=
  cfg_link RSS_CONFIG ++ "/blob/main/" ++ rel_path p.

Definition author_field : string :=
  cfg_email RSS_CONFIG ++ " (" ++ cfg_author RSS_CONFIG ++ ")".

Definition pub_date (p : post) : option string :=
  if truthy (date p) then format_rfc822_date (date p) else None.

Definition item_xml (p : post) (pub : string) : string :=
  "    <item>" ++ nl ++
  "      <title>" ++ escape (title p) ++ "</title>" ++ nl ++
  "      <link>" ++ github_url p ++ "</link>" ++ nl ++
  "      <description>" ++ escape (description p) ++ "</description>" ++ nl ++
  "      <author>" ++ author_field ++ "</author>" ++ nl ++
  "      <pubDate>" ++ pub ++ "</pubDate>" ++ nl ++
  "      <guid isPermaLink=" ++ dq ++ "true" ++ dq ++ ">" ++ github_url p
    ++ "</guid>" ++ nl ++
  "    </item>".

(** The loop that fills [rss_items]: a post without a publication date is
    skipped. *)
Fixpoint rss_items (blog_posts : list post) : list string :=
  match blog_posts with
  | [] => []
  | p :: ps =>
      if truthy (pub_date p) then item_xml p (show (pub_date p)) :: rss_items ps
      else rss_items ps
  end.

Definition last_build_date (clock : wall_clock) (blog_posts : list post)
  : option string :=
  match blog_posts with
  | p :: _ =>
      if truthy (date p) then format_rfc822_date (date p)
      else format_rfc822_date
             (Some (strftime (now clock) "%Y-%m-%d %H:%M:%S %z"))
  | [] =>
      format_rfc822_date (Some (strftime (now clock) "%Y-%m-%d %H:%M:%S %z"))
  end.

Definition render (last_build : option string) (items : list string)
  : string :=
  "<?xml version=" ++ dq ++ "1.0" ++ dq ++ " encoding=" ++ dq ++ "UTF-8" ++ dq
    ++ "?>" ++ nl ++
  "<rss version=" ++ dq ++ "2.0" ++ dq ++ " xmlns:atom=" ++ dq
    ++ "http://www.w3.org/2005/Atom" ++ dq ++ ">" ++ nl ++
  "  <channel>" ++ nl ++
  "    <title>" ++ escape (cfg_title RSS_CONFIG) ++ "</title>" ++ nl ++
  "    <link>" ++ cfg_link RSS_CONFIG ++ "</link>" ++ nl ++
  "    <description>" ++ escape (cfg_description RSS_CONFIG)
    ++ "</description>" ++ nl ++
  "    <language>" ++ cfg_language RSS_CONFIG ++ "</language>" ++ nl ++
  "    <managingEditor>" ++ author_field ++ "</managingEditor>" ++ nl ++
  "    <webMaster>" ++ author_field ++ "</webMaster>" ++ nl ++
  "    <lastBuildDate>" ++ show last_build ++ "</lastBuildDate>" ++ nl ++
  "    <atom:link href=" ++ dq ++ cfg_link RSS_CONFIG ++ "/feed.xml" ++ dq
    ++ " rel=" ++ dq ++ "self" ++ dq ++ " type=" ++ dq
    ++ "application/rss+xml" ++ dq ++ "/>" ++ nl ++
  String.concat nl items ++ nl ++
  "  </channel>" ++ nl ++
  "</rss>".

Definition generate_rss_feed (w : world) (clock : wall_clock) : result string :=
  blog_posts <- find_blog_posts w ;;
  Ok (render (last_build_date clock blog_posts) (rss_items blog_posts)).

(** [main], with [write] for what [output_path.write_text] does with the
    text (lines 166-167): an exception of the write ends the run before
    the posts are counted.  The result is the text and the number of posts
    that is reported, counted by a second call of [find_blog_posts]. *)
Definition main_writing (write : string -> result unit) (w : world)
    (clock : wall_clock) : result (string * nat) :=
  rss_content <- generate_rss_feed w clock ;;
  _ <- write rss_content ;;
  blog_posts <- find_blog_posts w ;;
  Ok (rss_content, List.length blog_posts).

(** [main] where the write of the text to [feed.xml] succeeds. *)
Definition main (w : world) (clock : wall_clock) : result (string * nat) :=
  rss_content <- generate_rss_feed w clock ;;
  blog_posts <- find_blog_posts w ;;
  Ok (rss_content, List.length blog_posts).

End Feed.

Import Regex DateTime Feed.

(** ** Vocabulary of the specification *)

(** The words a regular expression can match, anchors and priorities left
    aside: an upper bound of what [rmatch] accepts. *)
Inductive lang : regex -> string -> Prop :=
| lang_eps : lang Eps ""
| lang_chr p c : p c = true -> lang (Chr p) (String c "")
| lang_cat r1 r2 w1 w2 : lang r1 w1 -> lang r2 w2 -> lang (Cat r1 r2) (w1 ++ w2)
| lang_alt_l r1 r2 w : lang r1 w -> lang (Alt r1 r2) w
| lang_alt_r r1 r2 w : lang r2 w -> lang (Alt r1 r2) w
| lang_star_nil g r : lang (Star g r) ""
| lang_star_cons g r w1 w2 :
    lang r w1 -> lang (Star g r) w2 -> lang (Star g r) (w1 ++ w2)
| lang_bol : lang Bol ""
| lang_eol : lang Eol ""
| lang_group n r w : lang r w -> lang (Group n r) w.

Definition all_ascii : list ascii := map ascii_of_nat (seq 0 256).

Definition forall_ascii (f : ascii -> bool) : bool := List.forallb f all_ascii.

(** [ends_in P r = (e, n)]: [e] says that every word of [r] is empty or
    ends with a character of [P], [n] that every word of [r] is non-empty
    and ends with a character of [P]; both by a syntactic check that may
    answer [false] without cause, never [true]. *)
Fixpoint ends_in (P : ascii -> bool) (r : regex) : bool * bool :=
  match r with
  | Eps | Bol | Eol => (true, false)
  | Chr p => let b := forall_ascii (fun c => implb (p c) (P c)) in (b, b)
  | Cat r1 r2 =>
      let (e1, n1) := ends_in P r1 in
      let (e2, n2) := ends_in P r2 in
      ((e1 && e2) || n2, n2 || (n1 && e2))
  | Alt r1 r2 =>
      let (e1, n1) := ends_in P r1 in
      let (e2, n2) := ends_in P r2 in
      (e1 && e2, n1 && n2)
  | Star _ r' => (fst (ends_in P r'), false)
  | Group _ r' => ends_in P r'
  end.

(** A run of the matcher that only accepts after a word of [r]. *)
Definition sound_at {A : Type} (r : regex)
    (run : mstate -> (mstate -> option A) -> option A) : Prop :=
  forall s k x, run s k = Some x ->
    exists w s', rest s = w ++ rest s' /\ lang r w /\ k s' = Some x.

Definition ends_with (P : ascii -> bool) (w : string) : Prop :=
  exists c, PyStr.last w = Some c /\ P c = true.

(** The character before the position reached by reading [w]. *)
Definition prev_after (p : option ascii) (w : string) : option ascii :=
  match PyStr.last w with
  | Some c => Some c
  | None => p
  end.

(** A run of characters of the class [cl] cannot go on into [t]. *)
Definition stops (cl : ascii -> bool) (t : string) : bool :=
  match t with
  | "" => true
  | String c _ => negb (cl c)
  end.

(** The last character of a successfully parsed [%z] field. *)
Definition digit_or_Z (c : ascii) : bool :=
  PyStr.isdigit c || Ascii.eqb c "Z".

(** Escaping one character; the flags say which of [&], [<] and [>] are
    written as entities. *)
Definition escape_char (amp lt gt : bool) (c : ascii) : string :=
  if Ascii.eqb c "&" then (if amp then "&amp;" else "&")
  else if Ascii.eqb c "<" then (if lt then "&lt;" else "<")
  else if Ascii.eqb c ">" then (if gt then "&gt;" else ">")
  else String c "".

Fixpoint escape_with (amp lt gt : bool) (s : string) : string :=
  match s with
  | "" => ""
  | String c t => escape_char amp lt gt c ++ escape_with amp lt gt t
  end.

Definition is_markup (c : ascii) : bool :=
  Ascii.eqb c "<" || Ascii.eqb c ">".

(** Every [&] of the text starts one of the three entities. *)
Fixpoint entities_only (s : string) : bool :=
  match s with
  | "" => true
  | String c t =>
      (negb (Ascii.eqb c "&")
       || PyStr.startswith "amp;" t || PyStr.startswith "lt;" t
       || PyStr.startswith "gt;" t)
      && entities_only t
  end.

(** The posts that get an [<item>]. *)
Definition has_pub_date (p : post) : bool := truthy (pub_date p).

Definition rendered (blog_posts : list post) : list post :=
  filter has_pub_date blog_posts.

Definition render_item (p : post) : string := item_xml p (show (pub_date p)).

(** Descending order of the sort keys. *)
Definition key_ge (a b : post) : Prop :=
  PyStr.leb (sort_key b) (sort_key a) = true.

Definition same_key (k : string) (p : post) : bool := String.eqb (sort_key p) k.

(** The feed before and after the date of the last build. *)
Definition feed_head : string :=
  "<?xml version=" ++ dq ++ "1.0" ++ dq ++ " encoding=" ++ dq ++ "UTF-8" ++ dq
    ++ "?>" ++ nl ++
  "<rss version=" ++ dq ++ "2.0" ++ dq ++ " xmlns:atom=" ++ dq
    ++ "http://www.w3.org/2005/Atom" ++ dq ++ ">" ++ nl ++
  "  <channel>" ++ nl ++
  "    <title>" ++ escape (cfg_title RSS_CONFIG) ++ "</title>" ++ nl ++
  "    <link>" ++ cfg_link RSS_CONFIG ++ "</link>" ++ nl ++
  "    <description>" ++ escape (cfg_description RSS_CONFIG)
    ++ "</description>" ++ nl ++
  "    <language>" ++ cfg_language RSS_CONFIG ++ "</language>" ++ nl ++
  "    <managingEditor>" ++ author_field ++ "</managingEditor>" ++ nl ++
  "    <webMaster>" ++ author_field ++ "</webMaster>" ++ nl ++
  "    ".

Definition feed_tail (items : list string) : string :=
  nl ++
  "    <atom:link href=" ++ dq ++ cfg_link RSS_CONFIG ++ "/feed.xml" ++ dq
    ++ " rel=" ++ dq ++ "self" ++ dq ++ " type=" ++ dq
    ++ "application/rss+xml" ++ dq ++ "/>" ++ nl ++
  String.concat nl items ++ nl ++
  "  </channel>" ++ nl ++
  "</rss>".

(** The files the collector visits, in the order of the traversal. *)
Definition enumeration (w : world) : list string :=
  if blogs_exists w then rglob_md w else [].

(** Worlds of the scenarios. *)
Definition no_blogs : world :=
  World false [] (fun _ => NotStarted FileNotFoundError) (fun _ => Raised OSError).

Definition hello_world : world :=
  World true ["blogs/a.md"]
    (fun _ => Completed 0 ("2025-01-02 10:00:00 +0000" ++ nl))
    (fun _ => Ok ("# Hello World" ++ nl ++ nl ++ "**Goal:** Learn things." ++ nl)).

Definition git_missing : world :=
  World true ["blogs/a.md"]
    (fun _ => NotStarted FileNotFoundError)
    (fun _ => Ok ("# Hello World" ++ nl)).

Definition outside_repository : world :=
  World true ["blogs/a.md"]
    (fun _ => Completed 128 "")
    (fun _ => Ok ("# Hello World" ++ nl)).

Definition unreadable : world :=
  World true ["blogs/a.md"]
    (fun _ => Completed 0 ("2025-01-02 10:00:00 +0000" ++ nl))
    (fun _ => Raised UnicodeDecodeError).

(** Three files, the second of which git does not know. *)
Definition mixed : world :=
  World true ["blogs/a.md"; "blogs/b.md"; "blogs/c.md"]
    (fun f =>
       if String.eqb f "blogs/a.md"
       then Completed 0 ("2025-01-02 10:00:00 +0000" ++ nl)
       else if String.eqb f "blogs/c.md"
       then Completed 0 ("2025-03-04 08:30:00 +0100" ++ nl
                         ++ "2025-05-06 09:00:00 +0100" ++ nl)
       else Completed 0 "")
    (fun f => Ok ("# Notes on " ++ f ++ nl)).

(** Four files: two committed at the same instant, two unknown to git. *)
Definition ties : world :=
  World true ["blogs/a.md"; "blogs/b.md"; "blogs/c.md"; "blogs/d.md"]
    (fun f =>
       if String.eqb f "blogs/a.md" || String.eqb f "blogs/c.md"
       then Completed 0 ("2025-01-02 10:00:00 +0000" ++ nl)
       else Completed 0 "")
    (fun f => Ok ("# Notes" ++ nl)).

Definition ties_posts : list post :=
  map (fun fd => Post (fst fd) (fst fd) "Notes" "Read the full article: Notes" (snd fd))
    [ ("blogs/a.md", Some "2025-01-02 10:00:00 +0000");
      ("blogs/c.md", Some "2025-01-02 10:00:00 +0000");
      ("blogs/b.md", None);
      ("blogs/d.md", None) ].

Definition mixed_posts : list post :=
  [ Post "blogs/c.md" "blogs/c.md" "Notes on blogs/c.md"
      "Read the full article: Notes on blogs/c.md"
      (Some "2025-03-04 08:30:00 +0100");
    Post "blogs/a.md" "blogs/a.md" "Notes on blogs/a.md"
      "Read the full article: Notes on blogs/a.md"
      (Some "2025-01-02 10:00:00 +0000");
    Post "blogs/b.md" "blogs/b.md" "Notes on blogs/b.md"
      "Read the full article: Notes on blogs/b.md" None ].

(** A document with a paragraph before its Goal line. *)
Definition with_paragraph : world :=
  World true ["blogs/a.md"]
    (fun _ => Completed 0 ("2025-01-02 10:00:00 +0000" ++ nl))
    (fun _ => Ok ("# Title" ++ nl ++ nl ++ "Intro paragraph here." ++ nl ++ nl
                  ++ "**Goal:**" ++ "  Learn things. " ++ nl ++ "More." ++ nl)).

(** A document whose Goal line has no text. *)
Definition blank_goal : world :=
  World true ["blogs/a.md"]
    (fun _ => Completed 0 ("2025-01-02 10:00:00 +0000" ++ nl))
    (fun _ => Ok ("# Title" ++ nl ++ nl ++ "**Goal:** " ++ nl)).

(** ** Vocabulary of the further properties *)

Definition bol (p : option ascii) : bool :=
  match p with
  | None => true
  | Some c => PyStr.is_newline c
  end.

(** A heading can start at the position: it is the beginning of a line
    and holds [#] followed by a white-space character. *)
Definition heading_at (p : option ascii) (s : string) : bool :=
  bol p &&
  match s with
  | String h (String c _) => Ascii.eqb h "#" && PyStr.isspace c
  | _ => false
  end.

(** The first position where a heading can start. *)
Fixpoint first_heading_from (p : option ascii) (s : string) : option nat :=
  if heading_at p s then Some 0%nat
  else match s with
       | "" => None
       | String c t => option_map S (first_heading_from (Some c) t)
       end.

Definition first_heading (s : string) : option nat := first_heading_from None s.

(** A paragraph can start at the position: it is the beginning of a line
    and holds a letter of [A-Z] followed by a character other than a
    newline. *)
Definition paragraph_at (p : option ascii) (s : string) : bool :=
  bol p &&
  match s with
  | String a (String b _) => PyStr.in_range 65 90 a && not_newline b
  | _ => false
  end.

Fixpoint has_paragraph_from (p : option ascii) (s : string) : bool :=
  paragraph_at p s ||
  match s with
  | "" => false
  | String c t => has_paragraph_from (Some c) t
  end.

Definition has_paragraph (s : string) : bool := has_paragraph_from None s.

(** The text holds none of the characters [escape] rewrites. *)
Definition plain (s : string) : bool :=
  PyStr.forallb
    (fun c => negb (Ascii.eqb c "&" || Ascii.eqb c "<" || Ascii.eqb c ">")) s.

Definition no_char (c : ascii) (s : string) : bool :=
  PyStr.forallb (fun x => negb (Ascii.eqb x c)) s.

(** [git_log] of every file of the traversal ran to an exit status. *)
Definition all_started (w : world) : Prop :=
  forall f, In f (enumeration w) -> exists rc out, git_log w f = Completed rc out.

(** A world whose second document cannot be read. *)
Definition second_unreadable : world :=
  World true ["blogs/a.md"; "blogs/b.md"]
    (fun _ => Completed 0 ("2025-01-02 10:00:00 +0000" ++ nl))
    (fun f => if String.eqb f "blogs/b.md" then Raised UnicodeDecodeError
              else Ok ("# Notes" ++ nl)).

(** A document without heading and without paragraph. *)
Definition bare : world :=
  World true ["blogs/notes.md"]
    (fun _ => Completed 0 ("2025-01-02 10:00:00 +0000" ++ nl))
    (fun _ => Ok ("## sub heading" ++ nl ++ "- an item" ++ nl)).

(** A date as [git log --format=%ai] prints it: civil date and time, and
    the offset of the author's time zone, west or east of Greenwich. *)
Record git_date : Type := GitDate {
  g_year : Z; g_month : Z; g_day : Z;
  g_hour : Z; g_minute : Z; g_second : Z;
  g_west : bool; g_off_hours : Z; g_off_minutes : Z
}.

Definition pad4 (n : Z) : string :=
  String (PyStr.digit_char (n / 1000))
    (String (PyStr.digit_char (n / 100)) (PyStr.pad2 n)).

(** [YYYY-MM-DD HH:MM:SS +HHMM] *)
Definition git_date_text (g : git_date) : string :=
  pad4 (g_year g) ++ "-" ++ PyStr.pad2 (g_month g) ++ "-"
  ++ PyStr.pad2 (g_day g) ++ " " ++ PyStr.pad2 (g_hour g) ++ ":"
  ++ PyStr.pad2 (g_minute g) ++ ":" ++ PyStr.pad2 (g_second g) ++ " "
  ++ (if g_west g then "-" else "+")
  ++ PyStr.pad2 (g_off_hours g) ++ PyStr.pad2 (g_off_minutes g).

Definition git_date_valid (g : git_date) : bool :=
  valid_date (g_year g) (g_month g) (g_day g)
  && valid_time (g_hour g) (g_minute g) (g_second g)
  && ((0 <=? g_off_hours g) && (g_off_hours g <=? 23)
      && (0 <=? g_off_minutes g) && (g_off_minutes g <=? 59))%Z.

(** The offset is written with [-] when it is west of Greenwich and not
    zero. *)
Definition rfc822_sign (g : git_date) : string :=
  if g_west g && negb ((g_off_hours g =? 0) && (g_off_minutes g =? 0))%Z
  then "-" else "+".

(** [Thu, 02 Jan 2025 10:00:00 +0000] *)
Definition rfc822_text (g : git_date) : string :=
  day_abbr (weekday (DT (g_year g) (g_month g) (g_day g) 0 0 0 None)) ++ ", "
  ++ PyStr.pad2 (g_day g) ++ " " ++ month_abbr (g_month g) ++ " "
  ++ PyStr.decimal (g_year g) ++ " " ++ PyStr.pad2 (g_hour g) ++ ":"
  ++ PyStr.pad2 (g_minute g) ++ ":" ++ PyStr.pad2 (g_second g) ++ " "
  ++ rfc822_sign g
  ++ PyStr.pad2 (g_off_hours g) ++ PyStr.pad2 (g_off_minutes g).

(** What the group of a directive holds. *)
Definition inner_re (d : ascii) : regex :=
  match directive d with
  | Some (Group _ r) => r
  | _ => Eps
  end.

(** The pattern of the format of git's dates. *)
Definition git_date_re : regex :=
  Cat (Group "Y" (inner_re "Y")) (Cat (Char "-")
  (Cat (Group "m" (inner_re "m")) (Cat (Char "-")
  (Cat (Group "d" (inner_re "d")) (Cat (Plus true space)
  (Cat (Group "H" (inner_re "H")) (Cat (Char ":")
  (Cat (Group "M" (inner_re "M")) (Cat (Char ":")
  (Cat (Group "S" (inner_re "S")) (Cat (Plus true space)
  (Cat (Group "z" (inner_re "z")) Eps)))))))))))).

(** The groups of a match of [git_date_re], the latest first. *)
Definition git_date_caps (g : git_date) : list (string * string) :=
  [ ("z", (if g_west g then "-" else "+")
          ++ PyStr.pad2 (g_off_hours g) ++ PyStr.pad2 (g_off_minutes g));
    ("S", PyStr.pad2 (g_second g)); ("M", PyStr.pad2 (g_minute g));
    ("H", PyStr.pad2 (g_hour g)); ("d", PyStr.pad2 (g_day g));
    ("m", PyStr.pad2 (g_month g)); ("Y", pad4 (g_year g)) ].

(** The offset of a date of git, in microseconds, as [strptime] computes
    it. *)
Definition offset_microseconds (g : git_date) : Z :=
  let total := ((g_off_hours g * 3600 + g_off_minutes g * 60 + 0) * 1000000 + 0)%Z in
  if g_west g then (- total)%Z else total.

(** An item around the texts [t] and [d] of its title and description. *)
Definition item_frame (p : post) (pub t d : string) : string :=
  "    <item>" ++ nl ++
  "      <title>" ++ t ++ "</title>" ++ nl ++
  "      <link>" ++ github_url p ++ "</link>" ++ nl ++
  "      <description>" ++ d ++ "</description>" ++ nl ++
  "      <author>" ++ author_field ++ "</author>" ++ nl ++
  "      <pubDate>" ++ pub ++ "</pubDate>" ++ nl ++
  "      <guid isPermaLink=" ++ dq ++ "true" ++ dq ++ ">" ++ github_url p
    ++ "</guid>" ++ nl ++
  "    </item>".

(** The document around the texts [t] and [d] of the title and the
    description of the channel. *)
Definition channel_frame (t d : string) (last_build : option string)
    (items : list string) : string :=
  "<?xml version=" ++ dq ++ "1.0" ++ dq ++ " encoding=" ++ dq ++ "UTF-8" ++ dq
    ++ "?>" ++ nl ++
  "<rss version=" ++ dq ++ "2.0" ++ dq ++ " xmlns:atom=" ++ dq
    ++ "http://www.w3.org/2005/Atom" ++ dq ++ ">" ++ nl ++
  "  <channel>" ++ nl ++
  "    <title>" ++ t ++ "</title>" ++ nl ++
  "    <link>" ++ cfg_link RSS_CONFIG ++ "</link>" ++ nl ++
  "    <description>" ++ d ++ "</description>" ++ nl ++
  "    <language>" ++ cfg_language RSS_CONFIG ++ "</language>" ++ nl ++
  "    <managingEditor>" ++ author_field ++ "</managingEditor>" ++ nl ++
  "    <webMaster>" ++ author_field ++ "</webMaster>" ++ nl ++
  "    <lastBuildDate>" ++ show last_build ++ "</lastBuildDate>" ++ nl ++
  "    <atom:link href=" ++ dq ++ cfg_link RSS_CONFIG ++ "/feed.xml" ++ dq
    ++ " rel=" ++ dq ++ "self" ++ dq ++ " type=" ++ dq
    ++ "application/rss+xml" ++ dq ++ "/>" ++ nl ++
  String.concat nl items ++ nl ++
  "  </channel>" ++ nl ++
  "</rss>".

(** A text that can stand between two tags: it holds no [<] and no [>],
    and each of its [&] starts an entity. *)
Definition element_text (s : string) : bool :=
  PyStr.forallb (fun c => negb (is_markup c)) s && entities_only s.

(** The first position where a paragraph can start. *)
Fixpoint first_paragraph_from (p : option ascii) (s : string) : option nat :=
  if paragraph_at p s then Some 0%nat
  else match s with
       | "" => None
       | String c t => option_map S (first_paragraph_from (Some c) t)
       end.

Definition first_paragraph (s : string) : option nat :=
  first_paragraph_from None s.

(** The further lines of a paragraph, each after its newline. *)
Fixpoint lines_text (ls : list string) : string :=
  match ls with
  | [] => ""
  | l :: ls' => nl ++ l ++ lines_text ls'
  end.

Definition line_ok (l : string) : bool :=
  PyStr.nonempty l && PyStr.forallb not_newline l.

(** A paragraph ends before [t]: at the end of the text, or at a newline
    that an empty line or the end of the text follows. *)
Definition stops_paragraph (t : string) : bool :=
  match t with
  | "" => true
  | String c t' => PyStr.is_newline c && stops not_newline t'
  end.

(** A document whose first paragraph, of two lines, is longer than 200
    characters and stands before the title. *)
Definition long_paragraph : world :=
  World true ["blogs/a.md"]
    (fun _ => Completed 0 ("2025-01-02 10:00:00 +0000" ++ nl))
    (fun _ => Ok ("intro:" ++ nl ++ "Ab" ++ zeros 250 ++ nl ++ "second line"
                  ++ nl ++ nl ++ "# Title" ++ nl ++ "Other text." ++ nl)).

(** A write that fails for lack of space. *)
Definition disk_full (text : string) : result unit := Raised OSError.

(** * Properties *)

(** ** Strings *)

Lemma append_nil_r (s : string) : s ++ "" = s.
Proof. induction s; simpl; congruence. Qed.

Lemma append_assoc (a b c : string) : (a ++ b) ++ c = a ++ (b ++ c).
Proof. induction a; simpl; congruence. Qed.

Lemma length_append (a b : string) :
  String.length (a ++ b) = String.length a + String.length b.
Proof. induction a; simpl; congruence. Qed.

#[local] Arguments Ascii.eqb !a !b.

(** ** The history date resolver *)

Lemma get_git_date_exit_status (w : world) (p : string) (rc : Z) (out : string) :
  git_log w p = Completed rc out -> rc <> 0%Z -> get_git_date w p = Ok None.
Proof.
  intros H Hrc. unfold get_git_date, subprocess_run. rewrite H.
  destruct (Z.eqb_spec rc 0); [contradiction|reflexivity].
Qed.

Lemma get_git_date_blank (w : world) (p : string) (out : string) :
  git_log w p = Completed 0 out -> PyStr.strip out = "" ->
  get_git_date w p = Ok None.
Proof.
  intros H Hs. unfold get_git_date, subprocess_run. rewrite H. simpl.
  now rewrite Hs.
Qed.

Lemma get_git_date_ran (w : world) (p : string) (rc : Z) (out : string) :
  git_log w p = Completed rc out -> exists d, get_git_date w p = Ok d.
Proof.
  intros H. unfold get_git_date, subprocess_run. rewrite H.
  destruct (rc =? 0)%Z; [|now eexists].
  destruct (PyStr.split _ _) as [|d ?]; [now eexists|].
  destruct (PyStr.nonempty d); now eexists.
Qed.

Lemma get_git_date_some_nonempty (w : world) (p d : string) :
  get_git_date w p = Ok (Some d) -> PyStr.nonempty d = true.
Proof.
  unfold get_git_date. destruct (subprocess_run _) as [out|[]]; try discriminate.
  destruct (PyStr.split _ _) as [|d' ?]; [discriminate|].
  destruct (PyStr.nonempty d') eqn:E; [|discriminate].
  now intros [= <-].
Qed.

(** C2, as the code has it: a query that ran and failed (a non-zero exit
    status, as outside a repository, or no output, as for an untracked
    path) gives an absent date and raises nothing, and no query that ran
    raises; an error of the launch itself, other than
    [CalledProcessError], reaches the caller. *)
Theorem C2_get_git_date_failed_query (w : world) (p : string) :
  (forall rc out, git_log w p = Completed rc out ->
     rc <> 0%Z \/ PyStr.strip out = "" -> get_git_date w p = Ok None) /\
  (forall rc out, git_log w p = Completed rc out ->
     exists d, get_git_date w p = Ok d) /\
  (forall e, git_log w p = NotStarted e ->
     (forall rc, e <> CalledProcessError rc) -> get_git_date w p = Raised e).
Proof.
  split; [|split].
  - intros rc out H [Hrc|Hs].
    + eapply get_git_date_exit_status; eauto.
    + destruct (Z.eq_dec rc 0) as [->|Hrc].
      * eapply get_git_date_blank; eauto.
      * eapply get_git_date_exit_status; eauto.
  - intros rc out H. eapply get_git_date_ran; eauto.
  - intros e H He. unfold get_git_date, subprocess_run. rewrite H.
    destruct e; try reflexivity. now elim (He returncode).
Qed.

Lemma C2_get_git_date_failed_query_witness :
  get_git_date outside_repository "blogs/a.md" = Ok None /\
  get_git_date git_missing "blogs/a.md" = Raised FileNotFoundError.
Proof.
  split.
  - apply (proj1 (C2_get_git_date_failed_query outside_repository "blogs/a.md")
             128%Z "").
    + reflexivity.
    + left. discriminate.
  - apply (proj2 (proj2 (C2_get_git_date_failed_query git_missing "blogs/a.md"))
             FileNotFoundError).
    + reflexivity.
    + discriminate.
Defined.

(** C2 as stated fails: when git cannot be started, [subprocess.run]
    raises [FileNotFoundError], which [get_git_date] does not catch. *)
Lemma C2_tool_unavailable_propagates :
  git_log git_missing "blogs/a.md" = NotStarted FileNotFoundError /\
  get_git_date git_missing "blogs/a.md" = Raised FileNotFoundError /\
  get_git_date git_missing "blogs/a.md" <> Ok None.
Proof. repeat split. discriminate. Qed.

(** ** The metadata extractor *)

Lemma nonempty_true (s : string) : PyStr.nonempty s = true <-> s <> "".
Proof. destruct s; simpl; split; congruence. Qed.

Lemma append_nonempty_l (a b : string) : a <> "" -> a ++ b <> "".
Proof. destruct a; simpl; congruence. Qed.

(** C3, as the code has it: a document that can be read gets a non-empty
    description, and one that cannot be read gets the stem of its file name
    as title and the empty description. *)
Theorem C3_description_after_extraction (w : world) (file_path : string) :
  (forall content, read_text w file_path = Ok content ->
     snd (extract_title_and_description w file_path) <> "") /\
  (forall e, read_text w file_path = Raised e ->
     extract_title_and_description w file_path = (stem file_path, "")).
Proof.
  unfold extract_title_and_description. split.
  - intros content ->. cbv zeta. cbn [snd].
    destruct (search goal_re content) as [m|].
    + destruct (PyStr.nonempty _) eqn:E.
      * now apply nonempty_true.
      * now apply append_nonempty_l.
    + destruct (findall paragraph_re content) as [|para ?].
      * now apply append_nonempty_l.
      * destruct (PyStr.nonempty _) eqn:E.
        -- now apply nonempty_true.
        -- now apply append_nonempty_l.
  - now intros e ->.
Qed.

Lemma C3_description_after_extraction_witness :
  snd (extract_title_and_description hello_world "blogs/a.md") <> "" /\
  extract_title_and_description unreadable "blogs/a.md" = ("a", "").
Proof.
  split.
  - apply (proj1 (C3_description_after_extraction hello_world "blogs/a.md")
             ("# Hello World" ++ nl ++ nl ++ "**Goal:** Learn things." ++ nl)).
    reflexivity.
  - apply (proj2 (C3_description_after_extraction unreadable "blogs/a.md")
             UnicodeDecodeError).
    reflexivity.
Defined.

(** C3 as stated fails: a document whose read raises gets the empty
    description. *)
Lemma C3_unreadable_document_empty_description :
  read_text unreadable "blogs/a.md" = Raised UnicodeDecodeError /\
  extract_title_and_description unreadable "blogs/a.md" = ("a", "") /\
  ~ (snd (extract_title_and_description unreadable "blogs/a.md") <> "").
Proof. repeat split. intros H. now apply H. Qed.

(** ** The scenario of one document *)

(** C8: one file [a.md] holding a heading and a Goal line, first committed
    on 2025-01-02 10:00:00 +0000, gives one record and one item, with title
    [Hello World], description [Learn things.] and publication date
    [Thu, 02 Jan 2025 10:00:00 +0000]. *)
Theorem C8_hello_world_scenario :
  let p := Post "blogs/a.md" "blogs/a.md" "Hello World" "Learn things."
             (Some "2025-01-02 10:00:00 +0000") in
  find_blog_posts hello_world = Ok [p] /\
  pub_date p = Some "Thu, 02 Jan 2025 10:00:00 +0000" /\
  rss_items [p] =
    [ "    <item>" ++ nl ++
      "      <title>Hello World</title>" ++ nl ++
      "      <link>https://github.com/nipunap/nipunap/blob/main/blogs/a.md</link>" ++ nl ++
      "      <description>Learn things.</description>" ++ nl ++
      "      <author>nipunap@gmail.com (Nipuna Perera)</author>" ++ nl ++
      "      <pubDate>Thu, 02 Jan 2025 10:00:00 +0000</pubDate>" ++ nl ++
      "      <guid isPermaLink=" ++ dq ++ "true" ++ dq ++
        ">https://github.com/nipunap/nipunap/blob/main/blogs/a.md</guid>" ++ nl ++
      "    </item>" ] /\
  forall clock,
    generate_rss_feed hello_world clock =
      Ok (render (Some "Thu, 02 Jan 2025 10:00:00 +0000") (rss_items [p])).
Proof. vm_compute. repeat split. Qed.

(** ** Escaping *)

Lemma escape_with_app (amp lt gt : bool) (a b : string) :
  escape_with amp lt gt (a ++ b) = escape_with amp lt gt a ++ escape_with amp lt gt b.
Proof. induction a; simpl; [reflexivity|]. now rewrite append_assoc, IHa. Qed.

Lemma escape_with_none (s : string) : escape_with false false false s = s.
Proof.
  induction s as [|c s IH]; simpl; [reflexivity|]. rewrite IH.
  unfold escape_char.
  destruct (Ascii.eqb_spec c "&") as [->|]; [reflexivity|].
  destruct (Ascii.eqb_spec c "<") as [->|]; [reflexivity|].
  destruct (Ascii.eqb_spec c ">") as [->|]; reflexivity.
Qed.

(** One pass of [replace] over a text written by [escape_with]: the four
    kinds of character are told apart, and the pass is run on each. *)
Ltac replace_pass IH :=
  unfold PyStr.replace in *; simpl; unfold escape_char;
  match goal with
  | |- context [Ascii.eqb ?c "&"] =>
      destruct (Ascii.eqb_spec c "&") as [->|?];
      [ simpl; now rewrite IH
      | destruct (Ascii.eqb_spec c "<") as [->|?];
        [ simpl; now rewrite IH
        | destruct (Ascii.eqb_spec c ">") as [->|?];
          [ simpl; now rewrite IH
          | simpl;
            match goal with
            | |- context [Ascii.eqb ?o c] =>
                destruct (Ascii.eqb_spec o c); [congruence|]
            end;
            simpl; now rewrite IH ] ] ]
  end.

Lemma replace_amp (s : string) :
  PyStr.replace "&" "&amp;" s = escape_with true false false s.
Proof. induction s as [|c s IH]; [reflexivity|]. replace_pass IH. Qed.

Lemma replace_gt (s : string) :
  PyStr.replace ">" "&gt;" (escape_with true false false s)
  = escape_with true false true s.
Proof. induction s as [|c s IH]; [reflexivity|]. replace_pass IH. Qed.

Lemma replace_lt (s : string) :
  PyStr.replace "<" "&lt;" (escape_with true false true s)
  = escape_with true true true s.
Proof. induction s as [|c s IH]; [reflexivity|]. replace_pass IH. Qed.

Lemma unreplace_lt (s : string) :
  PyStr.replace "&lt;" "<" (escape_with true true true s)
  = escape_with true false true s.
Proof. induction s as [|c s IH]; [reflexivity|]. replace_pass IH. Qed.

Lemma unreplace_gt (s : string) :
  PyStr.replace "&gt;" ">" (escape_with true false true s)
  = escape_with true false false s.
Proof. induction s as [|c s IH]; [reflexivity|]. replace_pass IH. Qed.

Lemma unreplace_amp (s : string) :
  PyStr.replace "&amp;" "&" (escape_with true false false s)
  = escape_with false false false s.
Proof. induction s as [|c s IH]; [reflexivity|]. replace_pass IH. Qed.

(** [escape] rewrites the text character by character. *)
Lemma escape_chars (s : string) : escape s = escape_with true true true s.
Proof. unfold escape. now rewrite replace_amp, replace_gt, replace_lt. Qed.

Lemma escape_app (a b : string) : escape (a ++ b) = escape a ++ escape b.
Proof. rewrite !escape_chars. apply escape_with_app. Qed.

Lemma escape_char_other (c : ascii) :
  c <> "&"%char -> c <> "<"%char -> c <> ">"%char ->
  escape_char true true true c = String c "".
Proof.
  intros Ha Hl Hg. unfold escape_char.
  destruct (Ascii.eqb_spec c "&"); [contradiction|].
  destruct (Ascii.eqb_spec c "<"); [contradiction|].
  destruct (Ascii.eqb_spec c ">"); [contradiction|reflexivity].
Qed.

Lemma escape_no_markup (s : string) :
  PyStr.forallb (fun c => negb (is_markup c)) (escape_with true true true s) = true.
Proof.
  induction s as [|c s IH]; [reflexivity|]. simpl. unfold escape_char.
  destruct (Ascii.eqb_spec c "&") as [->|?]; [exact IH|].
  destruct (Ascii.eqb_spec c "<") as [->|Hl]; [exact IH|].
  destruct (Ascii.eqb_spec c ">") as [->|Hg]; [exact IH|].
  cbn [append PyStr.forallb]. apply andb_true_intro. split; [|exact IH].
  unfold is_markup. apply Ascii.eqb_neq in Hl, Hg. now rewrite Hl, Hg.
Qed.

Lemma escape_entities_only (s : string) :
  entities_only (escape_with true true true s) = true.
Proof.
  induction s as [|c s IH]; [reflexivity|]. simpl. unfold escape_char.
  destruct (Ascii.eqb_spec c "&") as [->|Ha]; [exact IH|].
  destruct (Ascii.eqb_spec c "<") as [->|?]; [exact IH|].
  destruct (Ascii.eqb_spec c ">") as [->|?]; [exact IH|].
  cbn [append entities_only]. apply andb_true_intro. split; [|exact IH].
  apply Ascii.eqb_neq in Ha. now rewrite Ha.
Qed.

Lemma escape_roundtrip (s : string) :
  unescape (escape s) = s /\
  PyStr.forallb (fun c => negb (is_markup c)) (escape s) = true /\
  entities_only (escape s) = true.
Proof.
  rewrite escape_chars. split; [|split].
  - unfold unescape.
    now rewrite unreplace_lt, unreplace_gt, unreplace_amp, escape_with_none.
  - apply escape_no_markup.
  - apply escape_entities_only.
Qed.

Lemma escape_element_text (s : string) : element_text (escape s) = true.
Proof.
  unfold element_text. destruct (escape_roundtrip s) as (_ & H1 & H2).
  now rewrite H1, H2.
Qed.

Lemma item_xml_frame (p : post) (pub : string) :
  item_xml p pub
  = item_frame p pub (escape (title p)) (escape (description p)).
Proof. reflexivity. Qed.

Lemma rss_items_frames (blog_posts : list post) :
  rss_items blog_posts
  = map (fun q => item_frame q (show (pub_date q))
                    (escape (title q)) (escape (description q)))
      (rendered blog_posts).
Proof.
  induction blog_posts as [|q qs IH]; [reflexivity|].
  unfold rendered in *. cbn [rss_items filter]. unfold has_pub_date at 1.
  destruct (truthy (pub_date q)); [|exact IH].
  cbn [map]. now rewrite IH, item_xml_frame.
Qed.

(** C6: for every text, the escaped text holds no [<] and no [>], each of
    its [&] starts one of the entities [&amp;], [&lt;], [&gt;], and
    [unescape] gives the text back.  The text an item holds between its
    title tags and between its description tags is the escaped title and
    the escaped description of the post, for every item of the feed; the
    channel holds the escaped title and description of the configuration
    in the same way.  So these texts cannot open or close an element, and
    unescaping them gives the title and the description back. *)
Theorem C6_escape_unescape_roundtrip (s : string) (p : post) (pub : string)
    (blog_posts : list post) (last_build : option string)
    (items : list string) :
  (unescape (escape s) = s /\
   PyStr.forallb (fun c => negb (is_markup c)) (escape s) = true /\
   entities_only (escape s) = true) /\
  (exists t d,
     item_xml p pub = item_frame p pub t d /\
     element_text t = true /\ element_text d = true /\
     unescape t = title p /\ unescape d = description p) /\
  rss_items blog_posts
    = map (fun q => item_frame q (show (pub_date q))
                      (escape (title q)) (escape (description q)))
        (rendered blog_posts) /\
  (exists t d,
     render last_build items = channel_frame t d last_build items /\
     element_text t = true /\ element_text d = true /\
     unescape t = cfg_title RSS_CONFIG /\
     unescape d = cfg_description RSS_CONFIG).
Proof.
  split; [apply escape_roundtrip|]. split; [|split].
  - exists (escape (title p)), (escape (description p)).
    split; [apply item_xml_frame|].
    repeat split; try apply escape_element_text; apply escape_roundtrip.
  - apply rss_items_frames.
  - exists (escape (cfg_title RSS_CONFIG)), (escape (cfg_description RSS_CONFIG)).
    split; [reflexivity|].
    repeat split; try apply escape_element_text; apply escape_roundtrip.
Qed.

(** C10: [escape] rewrites [&], [<] and [>] and leaves every other
    character as it is; a double or single quote of a title or description
    therefore stands unchanged in the text of the item's [<title>] and
    [<description>]. *)
Theorem C10_quotes_left_verbatim (p : post) (pub a b q : string) :
  q = dq \/ q = "'" ->
  (forall s, escape s = escape_with true true true s) /\
  (forall c, c <> "&"%char -> c <> "<"%char -> c <> ">"%char ->
     escape_char true true true c = String c "") /\
  escape (a ++ q ++ b) = escape a ++ q ++ escape b /\
  (title p = a ++ q ++ b ->
   exists rest,
     item_xml p pub =
       "    <item>" ++ nl ++ "      <title>" ++ escape a ++ q ++ escape b
       ++ "</title>" ++ rest) /\
  (description p = a ++ q ++ b ->
   exists before rest,
     item_xml p pub =
       before ++ "<description>" ++ escape a ++ q ++ escape b
       ++ "</description>" ++ rest).
Proof.
  intros Hq.
  assert (Hesc : escape (a ++ q ++ b) = escape a ++ q ++ escape b).
  { rewrite !escape_app. destruct Hq as [-> | ->]; reflexivity. }
  split; [exact escape_chars|]. split; [exact escape_char_other|].
  split; [exact Hesc|]. split.
  - intros Ht. unfold item_xml. rewrite Ht, Hesc. eexists.
    rewrite !append_assoc. reflexivity.
  - intros Hd. unfold item_xml. rewrite Hd, Hesc.
    exists ("    <item>" ++ nl ++ "      <title>" ++ escape (title p)
            ++ "</title>" ++ nl ++ "      <link>" ++ github_url p ++ "</link>"
            ++ nl ++ "      ").
    eexists. rewrite !append_assoc. reflexivity.
Qed.

Lemma C10_quotes_left_verbatim_witness :
  escape ("Don" ++ "'" ++ "t <panic>") = escape "Don" ++ "'" ++ escape "t <panic>".
Proof.
  apply (C10_quotes_left_verbatim
           (Post "blogs/a.md" "blogs/a.md" "Don't <panic>" "x" None)
           "" "Don" "t <panic>" "'").
  right. reflexivity.
Defined.

(** ** Order of strings *)

Lemma leb_refl (a : string) : PyStr.leb a a = true.
Proof. destruct (String.leb_total a a); assumption. Qed.

Lemma leb_trans (a b c : string) :
  PyStr.leb a b = true -> PyStr.leb b c = true -> PyStr.leb a c = true.
Proof.
  unfold PyStr.leb, String.leb. revert b c.
  induction a as [|x a IH]; intros [|y b] [|z c]; simpl; try easy.
  unfold Ascii.compare.
  destruct (N.compare_spec (N_of_ascii x) (N_of_ascii y)) as [Exy|Lxy|Gxy];
    destruct (N.compare_spec (N_of_ascii y) (N_of_ascii z)) as [Eyz|Lyz|Gyz];
    destruct (N.compare_spec (N_of_ascii x) (N_of_ascii z)) as [Exz|Lxz|Gxz];
    try easy; try lia.
  apply IH.
Qed.

Lemma leb_empty_l (a : string) : PyStr.leb "" a = true.
Proof. now destruct a. Qed.

Lemma leb_empty_r (a : string) : PyStr.leb a "" = true -> a = "".
Proof. now destruct a. Qed.

(** ** Sorting *)

Section SortFacts.
Context {A : Type} (key : A -> string).

Let le (a b : A) : Prop := PyStr.leb (key a) (key b) = true.
Let ge (a b : A) : Prop := PyStr.leb (key b) (key a) = true.

Lemma insert_In (x y : A) (l : list A) :
  In y (insert key x l) <-> y = x \/ In y l.
Proof.
  induction l as [|z l IH]; simpl.
  - intuition congruence.
  - destruct (PyStr.leb (key x) (key z)); simpl; [intuition congruence|].
    rewrite IH. intuition congruence.
Qed.

Lemma insert_length (x : A) (l : list A) :
  List.length (insert key x l) = S (List.length l).
Proof.
  induction l as [|z l IH]; simpl; [reflexivity|].
  destruct (PyStr.leb (key x) (key z)); simpl; congruence.
Qed.

Lemma insert_sorted (x : A) (l : list A) :
  StronglySorted le l -> StronglySorted le (insert key x l).
Proof.
  induction 1 as [|z l Hs IH Hz]; simpl.
  - constructor; constructor.
  - destruct (PyStr.leb (key x) (key z)) eqn:E.
    + constructor; [now constructor|].
      constructor; [exact E|].
      eapply Forall_impl; [|exact Hz].
      intros b Hb. unfold le in *. eapply leb_trans; eauto.
    + constructor; [exact IH|].
      apply Forall_forall. intros b Hb. apply insert_In in Hb.
      destruct Hb as [->|Hb].
      * unfold le. destruct (String.leb_total (key x) (key z)) as [H|H];
          [unfold PyStr.leb in E; congruence|exact H].
      * rewrite Forall_forall in Hz. now apply Hz.
Qed.

Lemma stable_sort_sorted (l : list A) : StronglySorted le (stable_sort key l).
Proof.
  induction l as [|x l IH]; simpl; [constructor|now apply insert_sorted].
Qed.

Lemma stable_sort_In (y : A) (l : list A) :
  In y (stable_sort key l) <-> In y l.
Proof.
  induction l as [|x l IH]; simpl; [tauto|].
  rewrite insert_In, IH. intuition congruence.
Qed.

Lemma stable_sort_length (l : list A) :
  List.length (stable_sort key l) = List.length l.
Proof.
  induction l as [|x l IH]; simpl; [reflexivity|].
  now rewrite insert_length, IH.
Qed.

(** Insertion steps over smaller keys only, so it leaves the elements of
    each key in their order. *)
Lemma insert_filter (k : string) (x : A) (l : list A) :
  filter (fun a => String.eqb (key a) k) (insert key x l)
  = filter (fun a => String.eqb (key a) k) (x :: l).
Proof.
  induction l as [|z l IH]; [reflexivity|].
  cbn [insert]. destruct (PyStr.leb (key x) (key z)) eqn:E; [reflexivity|].
  cbn [filter] in *. rewrite IH.
  destruct (String.eqb_spec (key x) k) as [Hx|Hx];
    destruct (String.eqb_spec (key z) k) as [Hz|Hz]; try reflexivity.
  rewrite Hx, Hz, leb_refl in E. discriminate.
Qed.

Lemma stable_sort_filter (k : string) (l : list A) :
  filter (fun a => String.eqb (key a) k) (stable_sort key l)
  = filter (fun a => String.eqb (key a) k) l.
Proof.
  induction l as [|x l IH]; [reflexivity|].
  cbn [stable_sort]. rewrite insert_filter. cbn [filter]. now rewrite IH.
Qed.

Lemma sorted_app (R : A -> A -> Prop) (l1 l2 : list A) :
  StronglySorted R l1 -> StronglySorted R l2 ->
  (forall a b, In a l1 -> In b l2 -> R a b) ->
  StronglySorted R (l1 ++ l2)%list.
Proof.
  induction 1 as [|x l1 Hs IH Hx]; intros H2 H; simpl; [exact H2|].
  constructor.
  - apply IH; [exact H2|]. intros a b Ha Hb. apply H; simpl; auto.
  - apply Forall_app. split; [exact Hx|].
    apply Forall_forall. intros b Hb. apply H; simpl; auto.
Qed.

Lemma sorted_rev (l : list A) :
  StronglySorted le l -> StronglySorted ge (rev l).
Proof.
  induction 1 as [|x l Hs IH Hx]; simpl; [constructor|].
  apply sorted_app; [exact IH|repeat constructor|].
  intros a b Ha [<-|[]]. apply In_rev in Ha.
  rewrite Forall_forall in Hx. now apply Hx.
Qed.

Lemma sorted_filter (R : A -> A -> Prop) (f : A -> bool) (l : list A) :
  StronglySorted R l -> StronglySorted R (filter f l).
Proof.
  induction 1 as [|x l Hs IH Hx]; simpl; [constructor|].
  destruct (f x); [|exact IH].
  constructor; [exact IH|].
  apply Forall_forall. intros b Hb. apply filter_In in Hb.
  rewrite Forall_forall in Hx. now apply Hx.
Qed.

Lemma sort_reverse_sorted (l : list A) :
  StronglySorted ge (sort_reverse key l).
Proof. apply sorted_rev, stable_sort_sorted. Qed.

Lemma sort_reverse_In (y : A) (l : list A) :
  In y (sort_reverse key l) <-> In y l.
Proof.
  unfold sort_reverse. now rewrite <- In_rev, stable_sort_In, <- In_rev.
Qed.

Lemma sort_reverse_length (l : list A) :
  List.length (sort_reverse key l) = List.length l.
Proof.
  unfold sort_reverse. now rewrite length_rev, stable_sort_length, length_rev.
Qed.

Lemma sort_reverse_stable (k : string) (l : list A) :
  filter (fun a => String.eqb (key a) k) (sort_reverse key l)
  = filter (fun a => String.eqb (key a) k) l.
Proof.
  unfold sort_reverse.
  now rewrite filter_rev, stable_sort_filter, filter_rev, rev_involutive.
Qed.
End SortFacts.

(** ** The collector *)

Lemma post_of_file_inv (w : world) (f : string) (p : post) :
  post_of_file w f = Ok p ->
  path p = f /\ get_git_date w f = Ok (date p) /\ date p <> Some "".
Proof.
  unfold post_of_file.
  destruct (get_git_date w f) as [d|e] eqn:G; simpl; [|discriminate].
  destruct (extract_title_and_description w f) as [t ds].
  intros [= <-]. simpl. repeat split. intros ->.
  now apply get_git_date_some_nonempty in G.
Qed.

Lemma collect_inv (w : world) (fs : list string) (recs : list post) :
  collect w fs = Ok recs -> Forall2 (fun f p => post_of_file w f = Ok p) fs recs.
Proof.
  revert recs. induction fs as [|f fs IH]; simpl; intros recs.
  - intros [= <-]. constructor.
  - destruct (post_of_file w f) as [p|] eqn:P; simpl; [|discriminate].
    destruct (collect w fs) as [ps|]; simpl; [|discriminate].
    intros [= <-]. constructor; auto.
Qed.

Lemma find_blog_posts_inv (w : world) (posts : list post) :
  find_blog_posts w = Ok posts ->
  exists recs,
    collect w (enumeration w) = Ok recs /\ posts = sort_reverse sort_key recs.
Proof.
  unfold find_blog_posts, enumeration. destruct (blogs_exists w); simpl.
  - destruct (collect w (rglob_md w)) as [recs|]; simpl; [|discriminate].
    intros [= <-]. now exists recs.
  - intros [= <-]. now exists [].
Qed.

Lemma collected_paths (w : world) (fs : list string) (recs : list post) :
  Forall2 (fun f p => post_of_file w f = Ok p) fs recs -> map path recs = fs.
Proof.
  induction 1 as [|f p fs recs H _ IH]; simpl; [reflexivity|].
  apply post_of_file_inv in H. destruct H as [-> _]. now rewrite IH.
Qed.

Lemma collected_dates (w : world) (fs : list string) (recs : list post) :
  Forall2 (fun f p => post_of_file w f = Ok p) fs recs ->
  Forall (fun p => date p <> Some "") recs.
Proof.
  induction 1 as [|f p fs recs H _ IH]; constructor; [|exact IH].
  now apply post_of_file_inv in H.
Qed.

Lemma collected_each (w : world) (fs : list string) (recs : list post) (f : string) :
  Forall2 (fun f p => post_of_file w f = Ok p) fs recs -> In f fs ->
  exists p, In p recs /\ path p = f /\ get_git_date w f = Ok (date p).
Proof.
  induction 1 as [|f' p fs recs H _ IH]; simpl; [tauto|].
  intros [->|Hin].
  - exists p. apply post_of_file_inv in H. intuition.
  - destruct (IH Hin) as (q & ? & ? & ?). exists q. intuition.
Qed.

(** ** The renderer *)

Lemma rss_items_rendered (posts : list post) :
  rss_items posts = map render_item (rendered posts).
Proof.
  induction posts as [|p ps IH]; [reflexivity|].
  unfold rendered in *. simpl. unfold has_pub_date at 1.
  destruct (truthy (pub_date p)); simpl; now rewrite IH.
Qed.

Lemma dateless_no_pub_date (p : post) : date p = None -> has_pub_date p = false.
Proof. unfold has_pub_date, pub_date. now intros ->. Qed.

Lemma has_pub_date_dated (p : post) :
  has_pub_date p = true -> exists d, date p = Some d /\ sort_key p = d.
Proof.
  unfold has_pub_date, pub_date, sort_key, truthy at 2.
  destruct (date p) as [d|]; [|discriminate].
  destruct (PyStr.nonempty d); [|discriminate]. now exists d.
Qed.

Lemma rss_items_skip (l1 l2 : list post) (p : post) :
  date p = None -> rss_items (l1 ++ p :: l2)%list = rss_items (l1 ++ l2)%list.
Proof.
  intros H. rewrite !rss_items_rendered. unfold rendered.
  rewrite !filter_app. simpl. now rewrite (dateless_no_pub_date p H).
Qed.

Lemma sorted_after (R : post -> post -> Prop) (l1 l2 : list post) (p : post) :
  StronglySorted R (l1 ++ p :: l2)%list -> Forall (R p) l2.
Proof.
  induction l1 as [|x l1 IH]; simpl; intros H; apply StronglySorted_inv in H.
  - tauto.
  - apply IH. tauto.
Qed.

Lemma sort_key_empty (p : post) :
  sort_key p = "" -> date p <> Some "" -> date p = None.
Proof.
  unfold sort_key. destruct (date p) as [d|]; [|reflexivity].
  destruct d; simpl; [congruence|discriminate].
Qed.

(** C4: a record without a date gives no item (the items are those of the
    list without it, and it is not among the rendered records), yet every
    file of the traversal has its record in the collection, and [main]
    reports the size of the whole collection. *)
Theorem C4_dateless_skipped_but_counted (w : world) (clock : wall_clock)
    (posts : list post) :
  find_blog_posts w = Ok posts ->
  (forall l1 p l2, posts = (l1 ++ p :: l2)%list -> date p = None ->
     rss_items posts = rss_items (l1 ++ l2)%list) /\
  (forall p, In p posts -> date p = None -> ~ In p (rendered posts)) /\
  List.length (rss_items posts) = List.length (rendered posts) /\
  (forall f, In f (enumeration w) ->
     exists p, In p posts /\ path p = f /\ get_git_date w f = Ok (date p)) /\
  List.length posts = List.length (enumeration w) /\
  exists feed, main w clock = Ok (feed, List.length posts).
Proof.
  intros H. destruct (find_blog_posts_inv _ _ H) as (recs & Hc & ->).
  pose proof (collect_inv _ _ _ Hc) as HF.
  repeat split.
  - intros l1 p l2 -> Hd. now apply rss_items_skip.
  - intros p _ Hd Hin. apply filter_In in Hin.
    rewrite (dateless_no_pub_date p Hd) in Hin. now destruct Hin.
  - now rewrite rss_items_rendered, length_map.
  - intros f Hf. destruct (collected_each _ _ _ f HF Hf) as (p & Hp & ? & ?).
    exists p. split; [|tauto]. now apply sort_reverse_In.
  - rewrite sort_reverse_length. apply Forall2_length in HF. now symmetry.
  - unfold main, generate_rss_feed. rewrite H. simpl. now eexists.
Qed.

Lemma C4_dateless_skipped_but_counted_witness :
  rss_items mixed_posts = rss_items (firstn 2 mixed_posts) /\
  List.length mixed_posts = 3 /\
  List.length (rss_items mixed_posts) = 2.
Proof.
  destruct (C4_dateless_skipped_but_counted mixed (Clock 2025 6 7 8 9 10)
              mixed_posts eq_refl) as (Hskip & _ & Hlen & _ & Hcount & _).
  split; [|split].
  - apply (Hskip (firstn 2 mixed_posts) (nth 2 mixed_posts (Post "" "" "" "" None)) []);
      reflexivity.
  - exact Hcount.
  - rewrite Hlen. reflexivity.
Defined.

(** C5: the collection is in descending order of the sort key (the date
    string, the empty string for an absent date), so every record after a
    dateless one is dateless; the items are those of the records with a
    publication date, in the order of the collection, hence in descending
    order of their date strings. *)
Theorem C5_newest_first (w : world) (posts : list post) :
  find_blog_posts w = Ok posts ->
  StronglySorted key_ge posts /\
  (forall l1 p l2, posts = (l1 ++ p :: l2)%list -> date p = None ->
     Forall (fun q => date q = None) l2) /\
  rss_items posts = map render_item (rendered posts) /\
  StronglySorted key_ge (rendered posts) /\
  Forall (fun p => exists d, date p = Some d /\ sort_key p = d) (rendered posts).
Proof.
  intros H. destruct (find_blog_posts_inv _ _ H) as (recs & Hc & ->).
  pose proof (collect_inv _ _ _ Hc) as HF.
  assert (Hs : StronglySorted key_ge (sort_reverse sort_key recs))
    by apply sort_reverse_sorted.
  split; [exact Hs|]. split; [|split; [|split]].
  - intros l1 p l2 E Hd. rewrite E in Hs. apply sorted_after in Hs.
    apply Forall_forall. intros q Hq.
    rewrite Forall_forall in Hs. specialize (Hs q Hq). unfold key_ge in Hs.
    assert (Hk : sort_key p = "") by (unfold sort_key; now rewrite Hd).
    rewrite Hk in Hs. apply leb_empty_r in Hs.
    apply sort_key_empty; [exact Hs|].
    pose proof (collected_dates _ _ _ HF) as Hne.
    rewrite Forall_forall in Hne. apply Hne.
    apply (sort_reverse_In sort_key). rewrite E. apply in_or_app. simpl. auto.
  - apply rss_items_rendered.
  - now apply sorted_filter.
  - apply Forall_forall. intros p Hp. apply filter_In in Hp.
    now apply has_pub_date_dated.
Qed.

Lemma C5_newest_first_witness :
  StronglySorted key_ge mixed_posts /\
  StronglySorted key_ge (rendered mixed_posts).
Proof.
  destruct (C5_newest_first mixed mixed_posts eq_refl) as (H1 & _ & _ & H2 & _).
  split; [exact H1|exact H2].
Defined.

(** C9: the sort of the collector is stable: for every key, the records
    with that key stand in the sorted collection in the order of the
    traversal. *)
Theorem C9_sort_is_stable (w : world) (posts : list post) :
  find_blog_posts w = Ok posts ->
  exists recs,
    collect w (enumeration w) = Ok recs /\
    map path recs = enumeration w /\
    forall k, filter (same_key k) posts = filter (same_key k) recs.
Proof.
  intros H. destruct (find_blog_posts_inv _ _ H) as (recs & Hc & ->).
  exists recs. split; [exact Hc|]. split.
  - eapply collected_paths, collect_inv, Hc.
  - intros k. apply (sort_reverse_stable sort_key).
Qed.

Lemma C9_sort_is_stable_witness :
  exists recs,
    collect ties (enumeration ties) = Ok recs /\
    map path recs = enumeration ties /\
    forall k, filter (same_key k) ties_posts = filter (same_key k) recs.
Proof. exact (C9_sort_is_stable ties ties_posts eq_refl). Defined.

(** ** The matcher accepts words of the language only *)

Section Soundness.
Context {A : Type}.

Lemma star_loop_sound (body : mstate -> cont -> option A) (g : bool) (r : regex) :
  sound_at r body ->
  forall fuel, sound_at (Star g r) (star_loop body g fuel).
Proof.
  intros Hb. induction fuel as [|fuel IH]; intros s k x; simpl.
  - intros H. exists "", s. repeat split; [constructor|exact H].
  - assert (Hk : k s = Some x ->
                 exists w s', rest s = w ++ rest s' /\ lang (Star g r) w
                              /\ k s' = Some x).
    { intros H. exists "", s. repeat split; [constructor|exact H]. }
    assert (Ha : forall y,
               body s (fun s' =>
                 if (String.length (rest s') <? String.length (rest s))%nat
                 then star_loop body g fuel s' k else None) = Some y ->
               exists w s', rest s = w ++ rest s' /\ lang (Star g r) w
                            /\ k s' = Some y).
    { intros y H. apply Hb in H. destruct H as (w1 & s1 & E1 & L1 & H).
      destruct (_ <? _)%nat; [|discriminate].
      apply IH in H. destruct H as (w2 & s2 & E2 & L2 & H).
      exists (w1 ++ w2), s2. split; [|split; [|exact H]].
      - now rewrite E1, E2, append_assoc.
      - now constructor. }
    destruct g.
    + destruct (body s _) as [y|] eqn:E.
      * intros [= <-]. now apply Ha.
      * exact Hk.
    + destruct (k s) as [y|] eqn:E.
      * intros [= <-]. now apply Hk.
      * apply Ha.
Qed.

Lemma rmatch_sound (r : regex) : sound_at r (rmatch (A:=A) r).
Proof.
  induction r as [|p|r1 IH1 r2 IH2|r1 IH1 r2 IH2|g r IH| | |n r IH];
    intros s k x; simpl.
  - intros H. exists "", s. repeat split; [constructor|exact H].
  - destruct s as [pv [|c t] cs]; simpl; [discriminate|].
    destruct (p c) eqn:E; [|discriminate].
    intros H. exists (String c ""), (MState (Some c) t cs).
    repeat split; [now constructor|exact H].
  - intros H. apply IH1 in H. destruct H as (w1 & s1 & E1 & L1 & H).
    apply IH2 in H. destruct H as (w2 & s2 & E2 & L2 & H).
    exists (w1 ++ w2), s2. split; [|split; [|exact H]].
    + now rewrite E1, E2, append_assoc.
    + now constructor.
  - destruct (rmatch r1 s k) as [y|] eqn:E.
    + intros [= <-]. apply IH1 in E. destruct E as (w & s' & ? & ? & ?).
      exists w, s'. repeat split; auto. now apply lang_alt_l.
    + intros H. apply IH2 in H. destruct H as (w & s' & ? & ? & ?).
      exists w, s'. repeat split; auto. now apply lang_alt_r.
  - now apply star_loop_sound.
  - destruct (at_bol s); [|discriminate].
    intros H. exists "", s. repeat split; [constructor|exact H].
  - destruct (at_eol s); [|discriminate].
    intros H. exists "", s. repeat split; [constructor|exact H].
  - intros H. apply IH in H. destruct H as (w & s' & E & L & H).
    eexists w, _. split; [|split; [|exact H]]; [exact E|now constructor].
Qed.
End Soundness.

Lemma take_app_length (w t : string) :
  PyStr.take (String.length (w ++ t) - String.length t) (w ++ t) = w.
Proof.
  rewrite length_append, Nat.add_sub.
  induction w as [|c w IH]; simpl; [now destruct t|now rewrite IH].
Qed.

(** A match that ends at the end of the text matched the whole text. *)
Lemma match_whole (r : regex) (s : string) (m : re_match) :
  match_ r s = Some m -> m_end m = String.length s -> lang r s.
Proof.
  unfold match_, match_at.
  destruct (rmatch r _ Some) as [s'|] eqn:E; [|discriminate].
  intros [= <-]. simpl.
  apply rmatch_sound in E. destruct E as (w & s'' & Ew & L & [= ->]).
  simpl in Ew. unfold consumed. simpl. rewrite Ew, take_app_length.
  rewrite length_append. intros Hl.
  destruct (rest s'); [now rewrite append_nil_r|simpl in Hl; lia].
Qed.

Lemma forall_ascii_sound (f : ascii -> bool) :
  forall_ascii f = true -> forall c, f c = true.
Proof.
  unfold forall_ascii, all_ascii. rewrite forallb_forall. intros H c.
  apply H, in_map_iff. exists (nat_of_ascii c). split.
  - apply ascii_nat_embedding.
  - apply in_seq. pose proof (nat_ascii_bounded c). lia.
Qed.

Lemma last_none (a : string) : PyStr.last a = None -> a = "".
Proof.
  induction a as [|x a IH]; [reflexivity|]. simpl.
  destruct a; [discriminate|]. intros H. now apply IH in H.
Qed.

Lemma last_append (a b : string) :
  PyStr.last (a ++ b)
  = match PyStr.last b with Some c => Some c | None => PyStr.last a end.
Proof.
  induction a as [|x a IH].
  - simpl. now destruct (PyStr.last b).
  - destruct a as [|y a].
    + destruct b as [|z b]; [reflexivity|].
      change (PyStr.last (String x "" ++ String z b)) with (PyStr.last (String z b)).
      destruct (PyStr.last (String z b)) eqn:E; [reflexivity|].
      now apply last_none in E.
    + change (PyStr.last (String x (String y a) ++ b))
        with (PyStr.last (String y a ++ b)).
      rewrite IH. reflexivity.
Qed.

Lemma ends_in_sound (P : ascii -> bool) (r : regex) (w : string) :
  lang r w ->
  (fst (ends_in P r) = true -> w = "" \/ ends_with P w) /\
  (snd (ends_in P r) = true -> ends_with P w).
Proof.
  induction 1 as [|p c Hc|r1 r2 w1 w2 _ IH1 _ IH2|r1 r2 w _ IH|r1 r2 w _ IH
                  |g r|g r w1 w2 _ IH1 _ IH2| | |n r w _ IH]; simpl;
    try (split; [auto|discriminate]).
  - assert (forall_ascii (fun c => implb (p c) (P c)) = true -> ends_with P (String c "")).
    { intros H. exists c. split; [reflexivity|].
      pose proof (forall_ascii_sound _ H c) as Hi. cbv beta in Hi.
      now rewrite Hc in Hi. }
    split; auto.
  - destruct (ends_in P r1) as [e1 n1], (ends_in P r2) as [e2 n2]. simpl in *.
    destruct IH1 as [E1 N1], IH2 as [E2 N2].
    assert (Hr : ends_with P w2 -> ends_with P (w1 ++ w2)).
    { intros (c & Hl & Hp). exists c. now rewrite last_append, Hl. }
    assert (Hl : ends_with P w1 -> w2 = "" \/ ends_with P w2 ->
                 ends_with P (w1 ++ w2)).
    { intros H1 [->|H2]; [now rewrite append_nil_r|now apply Hr]. }
    split; intros H.
    + apply orb_true_iff in H. destruct H as [H|H]; [|now right; auto].
      apply andb_true_iff in H. destruct H as [H1 H2].
      destruct (E1 H1) as [->|Hw1]; [now apply E2|]. right. now apply Hl; auto.
    + apply orb_true_iff in H. destruct H as [H|H]; [now auto|].
      apply andb_true_iff in H. destruct H as [H1 H2]. now apply Hl; auto.
  - destruct (ends_in P r1) as [e1 n1], (ends_in P r2) as [e2 n2]. simpl in *.
    split; intros H; apply andb_true_iff in H; now apply IH.
  - destruct (ends_in P r1) as [e1 n1], (ends_in P r2) as [e2 n2]. simpl in *.
    split; intros H; apply andb_true_iff in H; now apply IH.
  - simpl in *. intros H.
    destruct IH1 as [E1 _], IH2 as [E2 _].
    destruct (E2 H) as [->|(c & Hl & Hp)].
    + rewrite append_nil_r. now apply E1.
    + right. exists c. now rewrite last_append, Hl.
  - exact IH.
Qed.

(** ** The date of the last build *)

Lemma strptime_ends (P : ascii -> bool) (data fmt : string) (r : regex)
    (dt : datetime) :
  pattern fmt = Some r -> snd (ends_in P r) = true ->
  strptime data fmt = Some dt -> ends_with P data.
Proof.
  intros Hp He. unfold strptime. rewrite Hp.
  destruct (match_ r data) as [m|] eqn:Hm; [|discriminate].
  destruct (Nat.eqb_spec (m_end m) (String.length data)) as [Hl|]; [|discriminate].
  intros _. now apply (ends_in_sound P r data (match_whole r data m Hm Hl)).
Qed.

Lemma git_pattern_ends :
  exists r,
    pattern "%Y-%m-%d %H:%M:%S %z" = Some r /\
    snd (ends_in digit_or_Z r) = true.
Proof. eexists. split; [reflexivity|]. vm_compute. reflexivity. Qed.

(** A date that [strptime] accepts in git's format ends with a digit or
    with [Z]: the [%z] field cannot be empty. *)
Lemma git_date_ends (data : string) (dt : datetime) :
  strptime data "%Y-%m-%d %H:%M:%S %z" = Some dt -> ends_with digit_or_Z data.
Proof.
  destruct git_pattern_ends as (r & Hp & He).
  exact (strptime_ends digit_or_Z data _ r dt Hp He).
Qed.

(** The text [datetime.now()] gives in git's format ends with the space
    that precedes the empty [%z] of a naive value. *)
Lemma now_string_last (clock : wall_clock) :
  PyStr.last (strftime (now clock) "%Y-%m-%d %H:%M:%S %z") = Some " "%char.
Proof.
  cbn [strftime Ascii.eqb Bool.eqb]. unfold format_directive.
  cbn [Ascii.eqb Bool.eqb andb]. cbn [utcoffset now format_z].
  unfold PyStr.pad2. cbn [append].
  now rewrite last_append.
Qed.

Lemma format_now_is_None (clock : wall_clock) :
  format_rfc822_date (Some (strftime (now clock) "%Y-%m-%d %H:%M:%S %z")) = None.
Proof.
  unfold format_rfc822_date.
  destruct (negb _); [reflexivity|].
  destruct (strptime _ _) as [dt|] eqn:E; [|reflexivity].
  apply git_date_ends in E. destruct E as (c & Hl & Hc).
  rewrite now_string_last in Hl. now injection Hl as <-.
Qed.

Lemma render_split (last_build : option string) (items : list string) :
  render last_build items
  = feed_head ++ "<lastBuildDate>" ++ show last_build ++ "</lastBuildDate>"
    ++ feed_tail items.
Proof. unfold render, feed_head, feed_tail. rewrite !append_assoc. reflexivity. Qed.

(** C1, as the code has it: when the collection is empty or its first
    record has no date, the date of the last build is [None], whatever the
    clock says: [datetime.now()] is naive, its [%z] is empty, and
    [strptime] rejects the text; the feed then reads
    [<lastBuildDate>None</lastBuildDate>].  A missing documents directory
    gives such a feed, without items. *)
Theorem C1_fallback_build_date_is_None (w : world) (clock : wall_clock)
    (posts : list post) :
  find_blog_posts w = Ok posts ->
  posts = [] \/ (exists p ps, posts = p :: ps /\ date p = None) ->
  last_build_date clock posts = None /\
  generate_rss_feed w clock =
    Ok (feed_head ++ "<lastBuildDate>None</lastBuildDate>"
        ++ feed_tail (rss_items posts)) /\
  (blogs_exists w = false -> posts = [] /\ rss_items posts = []).
Proof.
  intros Hf Hp.
  assert (Hl : last_build_date clock posts = None).
  { destruct Hp as [->|(p & ps & -> & Hd)]; unfold last_build_date.
    - apply format_now_is_None.
    - rewrite Hd. apply format_now_is_None. }
  split; [exact Hl|]. split.
  - unfold generate_rss_feed. rewrite Hf. cbn [bind].
    now rewrite Hl, render_split.
  - intros Hb. unfold find_blog_posts in Hf. rewrite Hb in Hf.
    cbn [negb] in Hf. injection Hf as <-. now split.
Qed.

Lemma C1_fallback_build_date_is_None_witness :
  last_build_date (Clock 2025 1 2 10 0 0) [] = None /\
  generate_rss_feed no_blogs (Clock 2025 1 2 10 0 0) =
    Ok (feed_head ++ "<lastBuildDate>None</lastBuildDate>" ++ feed_tail []).
Proof.
  destruct (C1_fallback_build_date_is_None no_blogs (Clock 2025 1 2 10 0 0) []
              eq_refl (or_introl eq_refl)) as (H1 & H2 & _).
  split; [exact H1|exact H2].
Defined.

(** ** Runs of the matcher *)

Section Runs.
Context {A : Type}.
Implicit Types (k : mstate -> option A) (s : mstate).

Lemma rmatch_cat (r1 r2 : regex) s k :
  rmatch (Cat r1 r2) s k = rmatch r1 s (fun s' => rmatch r2 s' k).
Proof. reflexivity. Qed.

Lemma rmatch_star (g : bool) (r : regex) s k :
  rmatch (Star g r) s k = star_loop (rmatch r) g (String.length (rest s)) s k.
Proof. reflexivity. Qed.

Lemma rmatch_group (n : string) (r : regex) s k :
  rmatch (Group n r) s k
  = rmatch r s (fun s' =>
      k (MState (prev s') (rest s') ((n, consumed s s') :: caps s'))).
Proof. reflexivity. Qed.

Lemma rmatch_alt (r1 r2 : regex) s k :
  rmatch (Alt r1 r2) s k
  = match rmatch r1 s k with Some x => Some x | None => rmatch r2 s k end.
Proof. reflexivity. Qed.

Lemma rmatch_eol s k : rmatch Eol s k = if at_eol s then k s else None.
Proof. reflexivity. Qed.

Lemma rmatch_chr (cl : ascii -> bool) (p : option ascii) (c : ascii)
    (t : string) (cs : list (string * string)) k :
  rmatch (Chr cl) (MState p (String c t) cs) k
  = if cl c then k (MState (Some c) t cs) else None.
Proof. reflexivity. Qed.

Lemma rmatch_chr_stops (cl : ascii -> bool) (p : option ascii) (t : string)
    (cs : list (string * string)) k :
  stops cl t = true -> rmatch (Chr cl) (MState p t cs) k = None.
Proof.
  destruct t as [|c t]; [reflexivity|]. simpl.
  now destruct (cl c).
Qed.

Lemma prev_after_cons (p : option ascii) (c : ascii) (w : string) :
  prev_after (Some c) w = prev_after p (String c w).
Proof.
  unfold prev_after. simpl. destruct w as [|d w]; [reflexivity|].
  destruct (PyStr.last (String d w)) eqn:E; [reflexivity|].
  now apply last_none in E.
Qed.

(** A literal is read when the text starts with it, and only then. *)
Lemma rmatch_lit (w t : string) (p : option ascii)
    (cs : list (string * string)) k :
  rmatch (Lit w) (MState p (w ++ t) cs) k = k (MState (prev_after p w) t cs).
Proof.
  revert p. induction w as [|c w IH]; intros p; [reflexivity|].
  cbn [Lit append]. rewrite rmatch_cat. unfold Char. rewrite rmatch_chr.
  rewrite Ascii.eqb_refl, IH. now rewrite (prev_after_cons p).
Qed.

Lemma rmatch_lit_fail (w : string) s k :
  PyStr.startswith w (rest s) = false -> rmatch (Lit w) s k = None.
Proof.
  revert s. induction w as [|c w IH]; intros [p t cs]; [discriminate|].
  cbn [Lit rest PyStr.startswith]. rewrite rmatch_cat. unfold Char.
  destruct t as [|b t]; [reflexivity|]. rewrite rmatch_chr.
  destruct (Ascii.eqb c b); [|reflexivity].
  cbn [andb]. intros H. now apply IH.
Qed.

(** A greedy run over a class reads all the characters of the class
    that stand at the position, when what follows is accepted. *)
Lemma star_greedy_run (cl : ascii -> bool) (ws t : string)
    (cs : list (string * string)) k (x : A) :
  PyStr.forallb cl ws = true -> stops cl t = true ->
  forall (p : option ascii) (fuel : nat),
    String.length (ws ++ t) <= fuel ->
    k (MState (prev_after p ws) t cs) = Some x ->
    star_loop (rmatch (Chr cl)) true fuel (MState p (ws ++ t) cs) k = Some x.
Proof.
  intros Hws Ht. induction ws as [|c ws IH]; intros p fuel Hf Hk.
  - cbn [append] in *. unfold prev_after in Hk. cbn in Hk.
    destruct fuel as [|fuel]; [exact Hk|]. cbn [star_loop].
    now rewrite (rmatch_chr_stops cl p t cs _ Ht).
  - cbn [PyStr.forallb] in Hws. apply andb_true_iff in Hws.
    destruct Hws as [Hc Hws]. cbn [append String.length] in *.
    destruct fuel as [|fuel]; [lia|]. cbn [star_loop].
    rewrite rmatch_chr, Hc. cbn [rest String.length].
    rewrite (proj2 (Nat.ltb_lt _ _) (Nat.lt_succ_diag_r _)).
    rewrite (IH Hws (Some c) fuel); [reflexivity|lia|].
    now rewrite (prev_after_cons p).
Qed.

(** A lazy run over a class, followed by something that fails before
    every character of the class, reads up to the first character
    outside the class. *)
Lemma star_lazy_run (cl : ascii -> bool) (body t : string)
    (cs : list (string * string)) k :
  PyStr.forallb cl body = true -> stops cl t = true ->
  (forall q c u, cl c = true -> k (MState q (String c u) cs) = None) ->
  forall (p : option ascii) (fuel : nat),
    String.length (body ++ t) <= fuel ->
    star_loop (rmatch (Chr cl)) false fuel (MState p (body ++ t) cs) k
    = k (MState (prev_after p body) t cs).
Proof.
  intros Hb Ht Hk. induction body as [|c body IH]; intros p fuel Hf.
  - cbn [append]. unfold prev_after. cbn [PyStr.last].
    destruct fuel as [|fuel]; [reflexivity|]. cbn [star_loop].
    rewrite (rmatch_chr_stops cl p t cs _ Ht). now destruct (k _).
  - cbn [PyStr.forallb] in Hb. apply andb_true_iff in Hb.
    destruct Hb as [Hc Hb]. cbn [append String.length] in *.
    destruct fuel as [|fuel]; [lia|]. cbn [star_loop].
    rewrite (Hk p c (body ++ t) Hc), rmatch_chr, Hc. cbn [rest String.length].
    rewrite (proj2 (Nat.ltb_lt _ _) (Nat.lt_succ_diag_r _)).
    rewrite (IH Hb (Some c) fuel) by lia.
    now rewrite (prev_after_cons p).
Qed.
End Runs.

(** ** The Goal line *)

Lemma forallb_append (f : ascii -> bool) (a b : string) :
  PyStr.forallb f (a ++ b) = PyStr.forallb f a && PyStr.forallb f b.
Proof. induction a as [|c a IH]; simpl; [reflexivity|]. now rewrite IH, andb_assoc. Qed.

Lemma lstrip_split (x : string) :
  exists ws, x = ws ++ PyStr.lstrip x /\ PyStr.forallb PyStr.isspace ws = true.
Proof.
  induction x as [|c x (ws & E & H)]; [now exists ""|]. simpl.
  destruct (PyStr.isspace c) eqn:Ec.
  - exists (String c ws). simpl. now rewrite <- E, Ec, H.
  - now exists "".
Qed.

Lemma lstrip_stops (x : string) : stops PyStr.isspace (PyStr.lstrip x) = true.
Proof.
  induction x as [|c x IH]; [reflexivity|]. simpl.
  destruct (PyStr.isspace c) eqn:Ec; [exact IH|]. simpl. now rewrite Ec.
Qed.

Lemma lstrip_idempotent (x : string) :
  PyStr.lstrip (PyStr.lstrip x) = PyStr.lstrip x.
Proof.
  induction x as [|c x IH]; [reflexivity|]. simpl.
  destruct (PyStr.isspace c) eqn:Ec; [exact IH|]. simpl. now rewrite Ec.
Qed.

(** The part of the pattern after the label and the white space: the
    lazy group reads to the end of the line, and group 1 is what it read. *)
Lemma goal_text_run (q : option ascii) (c : ascii) (body tail : string)
    (cs : list (string * string)) :
  PyStr.forallb not_newline (String c body) = true ->
  stops not_newline tail = true ->
  exists s',
    rmatch (Cat (Group "1" (Plus false (Chr not_newline)))
                (Alt (Char PyStr.newline) Eol))
           (MState q (String c body ++ tail) cs) Some = Some s' /\
    caps s' = ("1", String c body) :: cs.
Proof.
  intros Hb Ht. rewrite rmatch_cat, rmatch_group. unfold Plus.
  cbn [append]. rewrite rmatch_cat, rmatch_chr.
  cbn [PyStr.forallb] in Hb. apply andb_true_iff in Hb. destruct Hb as [Hc Hb].
  rewrite Hc, rmatch_star.
  rewrite (star_lazy_run (A:=mstate) not_newline body tail cs _ Hb Ht).
  - cbn [prev rest caps]. unfold consumed. cbn [rest].
    change (String c (body ++ tail)) with (String c body ++ tail).
    rewrite take_app_length.
    destruct tail as [|d tail].
    + cbn. eexists. split; reflexivity.
    + cbn in Ht. apply negb_true_iff in Ht. unfold not_newline in Ht.
      apply negb_false_iff in Ht. unfold PyStr.is_newline in Ht.
      apply Ascii.eqb_eq in Ht. subst d. cbn. eexists. split; reflexivity.
  - intros q' d u Hd. cbn [prev rest caps]. unfold Char.
    rewrite rmatch_alt, rmatch_chr, rmatch_eol.
    unfold not_newline, PyStr.is_newline in Hd.
    apply negb_true_iff in Hd. rewrite Ascii.eqb_sym, Hd.
    unfold at_eol. cbn [rest]. unfold PyStr.is_newline.
    now rewrite Hd.
  - cbn [rest]. lia.
Qed.

Lemma goal_match (p : option ascii) (pos : nat) (ws : string) (c : ascii)
    (body tail : string) :
  PyStr.forallb PyStr.isspace ws = true -> PyStr.isspace c = false ->
  PyStr.forallb not_newline (String c body) = true ->
  stops not_newline tail = true ->
  exists m,
    match_at goal_re p pos ("**Goal:**" ++ ws ++ String c body ++ tail) = Some m /\
    group1 m = String c body.
Proof.
  intros Hws Hc Hb Ht.
  destruct (goal_text_run (prev_after (prev_after p "**Goal:**") ws) c body tail []
              Hb Ht) as (s' & Hs & Hcaps).
  unfold match_at, goal_re. rewrite rmatch_cat, rmatch_lit, rmatch_cat, rmatch_star.
  rewrite (star_greedy_run (A:=mstate) PyStr.isspace ws (String c body ++ tail) []
             _ s' Hws); cbn [rest].
  - eexists. split; [reflexivity|]. unfold group1, group. cbn [m_groups].
    rewrite Hcaps. reflexivity.
  - cbn [append stops]. now rewrite Hc.
  - lia.
  - exact Hs.
Qed.

Lemma search_from_eq (r : regex) (p : option ascii) (pos : nat) (s : string) :
  search_from r p pos s
  = match match_at r p pos s with
    | Some m => Some m
    | None =>
        match s with
        | "" => None
        | String c t => search_from r (Some c) (S pos) t
        end
    end.
Proof. destruct s; reflexivity. Qed.

Lemma goal_search_from (pre ws : string) (c : ascii) (body tail : string) :
  PyStr.forallb PyStr.isspace ws = true -> PyStr.isspace c = false ->
  PyStr.forallb not_newline (String c body) = true ->
  stops not_newline tail = true ->
  PyStr.find "**Goal:**" (pre ++ "**Goal:**" ++ ws ++ String c body ++ tail)
    = Some (String.length pre) ->
  forall (p : option ascii) (pos : nat),
  exists m,
    search_from goal_re p pos (pre ++ "**Goal:**" ++ ws ++ String c body ++ tail)
      = Some m /\
    group1 m = String c body.
Proof.
  intros Hws Hc Hb Ht.
  remember ("**Goal:**" ++ ws ++ String c body ++ tail) as doc eqn:Hdoc.
  induction pre as [|a pre IH]; intros Hf p pos.
  - change ("" ++ doc) with doc. subst doc.
    destruct (goal_match p pos ws c body tail Hws Hc Hb Ht) as (m & Hm & Hg).
    exists m. split; [|exact Hg]. now rewrite search_from_eq, Hm.
  - cbn [append String.length] in *. cbn [PyStr.find] in Hf.
    destruct (PyStr.startswith _ _) eqn:Hsw; [discriminate|].
    destruct (PyStr.find _ _) as [n|] eqn:Hn; [|discriminate].
    injection Hf as ->. rewrite search_from_eq.
    assert (Hno : match_at goal_re p pos (String a (pre ++ doc)) = None).
    { unfold match_at, goal_re. rewrite rmatch_cat.
      now rewrite rmatch_lit_fail. }
    rewrite Hno. now apply IH.
Qed.

(** C7, as the code has it: when the first [**Goal:**] label of a document
    is followed, up to the end of its line, by a text [x] that is not
    blank, the description is [x] trimmed, whatever stands before the label
    and after the line, a paragraph that would qualify included. *)
Theorem C7_goal_line_description (w : world) (file_path pre x tail : string) :
  read_text w file_path = Ok (pre ++ "**Goal:**" ++ x ++ tail) ->
  PyStr.find "**Goal:**" (pre ++ "**Goal:**" ++ x ++ tail)
    = Some (String.length pre) ->
  PyStr.forallb not_newline x = true ->
  stops not_newline tail = true ->
  PyStr.strip x <> "" ->
  snd (extract_title_and_description w file_path) = PyStr.strip x.
Proof.
  intros Hr Hf Hx Ht Hs.
  destruct (lstrip_split x) as (ws & Ex & Hws).
  pose proof (lstrip_stops x) as Hc.
  assert (Hstrip : PyStr.strip x = PyStr.strip (PyStr.lstrip x))
    by (unfold PyStr.strip; now rewrite lstrip_idempotent).
  destruct (PyStr.lstrip x) as [|c body] eqn:El; [now elim Hs|].
  cbn [stops] in Hc. apply negb_true_iff in Hc.
  rewrite Ex, forallb_append in Hx. apply andb_true_iff in Hx.
  destruct Hx as [_ Hb].
  rewrite Ex, append_assoc in Hr, Hf.
  destruct (goal_search_from pre ws c body tail Hws Hc Hb Ht Hf None 0)
    as (m & Hm & Hg).
  unfold extract_title_and_description. rewrite Hr.
  unfold search. rewrite Hm, Hg, <- Hstrip. cbn [snd].
  destruct (PyStr.nonempty (PyStr.strip x)) eqn:E; [reflexivity|].
  destruct (PyStr.strip x); [now elim Hs|discriminate].
Qed.

Lemma C7_goal_line_description_witness :
  snd (extract_title_and_description with_paragraph "blogs/a.md")
  = "Learn things.".
Proof.
  apply (C7_goal_line_description with_paragraph "blogs/a.md"
           ("# Title" ++ nl ++ nl ++ "Intro paragraph here." ++ nl ++ nl)
           "  Learn things. " (nl ++ "More." ++ nl)).
  - reflexivity.
  - reflexivity.
  - reflexivity.
  - reflexivity.
  - discriminate.
Defined.

(** C7 as stated fails: after a [**Goal:**] label whose line holds nothing
    but white space, the description is not the (empty) trimmed text of
    the line but the default sentence. *)
Lemma C7_blank_goal_line :
  read_text blank_goal "blogs/a.md"
    = Ok ("# Title" ++ nl ++ nl ++ "**Goal:**" ++ " " ++ nl) /\
  extract_title_and_description blank_goal "blogs/a.md"
    = ("Title", "Read the full article: Title") /\
  snd (extract_title_and_description blank_goal "blogs/a.md") <> PyStr.strip " ".
Proof. repeat split. discriminate. Qed.


(** * Further properties *)

(** ** The first line of the output of git *)

Lemma rstrip_prefix (s : string) : exists t, s = PyStr.rstrip s ++ t.
Proof.
  induction s as [|c s (t & E)]; [now exists ""|]. simpl.
  destruct (PyStr.rstrip s) as [|d r] eqn:R.
  - destruct (PyStr.isspace c).
    + now exists (String c s).
    + exists s. reflexivity.
  - exists t. simpl in *. now rewrite <- E.
Qed.

Lemma rstrip_keeps_head (c : ascii) (s : string) :
  PyStr.isspace c = false -> exists r, PyStr.rstrip (String c s) = String c r.
Proof.
  intros H. simpl. destruct (PyStr.rstrip s); [|now eexists].
  rewrite H. now eexists.
Qed.

(** The first element of [split] is the text before the first separator. *)
Lemma split_first (sep : ascii) (s : string) :
  exists d ws t,
    PyStr.split sep s = d :: ws /\ s = d ++ t /\
    no_char sep d = true /\ stops (fun x => negb (Ascii.eqb x sep)) t = true.
Proof.
  induction s as [|c s (d & ws & t & Hs & E & Hd & Ht)].
  - now exists "", [], "".
  - simpl. destruct (Ascii.eqb c sep) eqn:Ec.
    + exists "", (PyStr.split sep s), (String c s). repeat split. simpl.
      now rewrite Ec.
    + rewrite Hs. exists (String c d), ws, t. repeat split.
      * simpl. now rewrite E.
      * unfold no_char in *. simpl. now rewrite Ec, Hd.
      * exact Ht.
Qed.

Lemma split_of_first (sep : ascii) (d t : string) :
  no_char sep d = true -> stops (fun x => negb (Ascii.eqb x sep)) t = true ->
  exists ws, PyStr.split sep (d ++ t) = d :: ws.
Proof.
  intros Hd Ht. induction d as [|c d IH].
  - destruct t as [|x t]; [now exists []|]. simpl in *.
    apply negb_true_iff, negb_false_iff in Ht. rewrite Ht. now eexists.
  - unfold no_char in *. simpl in Hd. apply andb_true_iff in Hd.
    destruct Hd as [Hc Hd]. apply negb_true_iff in Hc.
    destruct (IH Hd) as (ws & E). simpl. rewrite Hc, E. now eexists.
Qed.

Lemma get_git_date_not_started (w : world) (p : string) (e : exn) :
  git_log w p = NotStarted e -> (forall rc, e <> CalledProcessError rc) ->
  get_git_date w p = Raised e.
Proof.
  intros H He. unfold get_git_date, subprocess_run. rewrite H.
  destruct e; try reflexivity. now elim (He returncode).
Qed.

(** X1: when git exits with status zero, the date is the first line of
    its trimmed output, provided that line is not empty. *)
Theorem get_git_date_first_line (w : world) (p out d t : string) :
  git_log w p = Completed 0 out ->
  PyStr.strip out = d ++ t ->
  no_char PyStr.newline d = true -> stops not_newline t = true -> d <> "" ->
  get_git_date w p = Ok (Some d).
Proof.
  intros Hg Hs Hd Ht Hne. unfold get_git_date, subprocess_run. rewrite Hg.
  cbn [Z.eqb]. rewrite Hs.
  destruct (split_of_first PyStr.newline d t Hd Ht) as (ws & ->).
  now destruct d.
Qed.

Lemma get_git_date_first_line_witness :
  get_git_date mixed "blogs/c.md" = Ok (Some "2025-03-04 08:30:00 +0100").
Proof.
  apply (get_git_date_first_line mixed "blogs/c.md"
           ("2025-03-04 08:30:00 +0100" ++ nl ++ "2025-05-06 09:00:00 +0100" ++ nl)
           "2025-03-04 08:30:00 +0100" (nl ++ "2025-05-06 09:00:00 +0100"));
    try reflexivity. discriminate.
Defined.

(** X2: a date that [get_git_date] returns comes from a run of git that
    exited with status zero; it is the text before the first newline of
    the trimmed output, it is not empty, holds no newline and does not
    start with white space. *)
Theorem get_git_date_present (w : world) (p d : string) :
  get_git_date w p = Ok (Some d) ->
  exists out t,
    git_log w p = Completed 0 out /\ PyStr.strip out = d ++ t /\
    stops not_newline t = true /\
    d <> "" /\ no_char PyStr.newline d = true /\ stops PyStr.isspace d = true.
Proof.
  unfold get_git_date, subprocess_run.
  destruct (git_log w p) as [rc out|e] eqn:Hg.
  - destruct (Z.eqb_spec rc 0) as [->|]; [|discriminate].
    destruct (split_first PyStr.newline (PyStr.strip out))
      as (d' & ws & t & -> & E & Hd & Ht).
    destruct (PyStr.nonempty d') eqn:Hn; [|discriminate].
    intros [= <-]. exists out, t. repeat split; auto.
    + now apply nonempty_true.
    + pose proof (lstrip_stops out) as Hl. unfold PyStr.strip in E.
      destruct (PyStr.lstrip out) as [|c l]; [now destruct d'|].
      cbn [stops] in Hl. apply negb_true_iff in Hl.
      destruct (rstrip_keeps_head c l Hl) as (r & Hr). rewrite Hr in E.
      destruct d' as [|c' d']; [discriminate|]. simpl in E.
      injection E as <- _. simpl. now rewrite Hl.
  - destruct e; discriminate.
Qed.

Lemma get_git_date_present_witness :
  exists out t,
    git_log hello_world "blogs/a.md" = Completed 0 out /\
    PyStr.strip out = "2025-01-02 10:00:00 +0000" ++ t /\
    stops not_newline t = true /\
    "2025-01-02 10:00:00 +0000" <> "" /\
    no_char PyStr.newline "2025-01-02 10:00:00 +0000" = true /\
    stops PyStr.isspace "2025-01-02 10:00:00 +0000" = true.
Proof.
  exact (get_git_date_present hello_world "blogs/a.md"
           "2025-01-02 10:00:00 +0000" eq_refl).
Defined.

(** ** The collection *)

Lemma insert_perm {A : Type} (key : A -> string) (x : A) (l : list A) :
  Permutation (x :: l) (insert key x l).
Proof.
  induction l as [|y l IH]; simpl; [reflexivity|].
  destruct (PyStr.leb (key x) (key y)); [reflexivity|].
  rewrite perm_swap. now constructor.
Qed.

Lemma stable_sort_perm {A : Type} (key : A -> string) (l : list A) :
  Permutation l (stable_sort key l).
Proof.
  induction l as [|x l IH]; simpl; [constructor|].
  rewrite <- insert_perm. now constructor.
Qed.

Lemma sort_reverse_perm {A : Type} (key : A -> string) (l : list A) :
  Permutation l (sort_reverse key l).
Proof.
  unfold sort_reverse.
  now rewrite <- Permutation_rev, <- stable_sort_perm, <- Permutation_rev.
Qed.

(** X3: the collection is a rearrangement of the records of the files of
    the traversal: sorting loses no record and repeats none. *)
Theorem find_blog_posts_permutation (w : world) (posts : list post) :
  find_blog_posts w = Ok posts ->
  exists recs,
    collect w (enumeration w) = Ok recs /\
    map path recs = enumeration w /\
    Permutation recs posts.
Proof.
  intros H. destruct (find_blog_posts_inv _ _ H) as (recs & Hc & ->).
  exists recs. split; [exact Hc|]. split.
  - eapply collected_paths, collect_inv, Hc.
  - apply sort_reverse_perm.
Qed.

Lemma find_blog_posts_permutation_witness :
  exists recs,
    collect mixed (enumeration mixed) = Ok recs /\
    map path recs = enumeration mixed /\
    Permutation recs mixed_posts.
Proof. exact (find_blog_posts_permutation mixed mixed_posts eq_refl). Defined.

Lemma post_of_file_not_started (w : world) (f : string) (e : exn) :
  git_log w f = NotStarted e -> (forall rc, e <> CalledProcessError rc) ->
  post_of_file w f = Raised e.
Proof.
  intros H He. unfold post_of_file.
  now rewrite (get_git_date_not_started w f e H He).
Qed.

Lemma post_of_file_raises (w : world) (f : string) (e : exn) :
  post_of_file w f = Raised e ->
  git_log w f = NotStarted e /\ forall rc, e <> CalledProcessError rc.
Proof.
  unfold post_of_file, get_git_date, subprocess_run.
  destruct (git_log w f) as [rc out|e'].
  - destruct (rc =? 0)%Z; simpl.
    + destruct (PyStr.split _ _) as [|d ?]; simpl.
      * now destruct (extract_title_and_description w f).
      * destruct (PyStr.nonempty d); simpl;
          now destruct (extract_title_and_description w f).
    + now destruct (extract_title_and_description w f).
  - destruct e'; simpl; try (now destruct (extract_title_and_description w f));
      intros [= <-]; split; try reflexivity; discriminate.
Qed.

Lemma collect_raises (w : world) (fs : list string) (f : string) (e : exn) :
  In f fs -> git_log w f = NotStarted e ->
  (forall rc, e <> CalledProcessError rc) ->
  exists f' e',
    In f' fs /\ git_log w f' = NotStarted e' /\
    (forall rc, e' <> CalledProcessError rc) /\ collect w fs = Raised e'.
Proof.
  intros Hin Hg He. induction fs as [|g fs IH]; [contradiction|].
  simpl. destruct (post_of_file w g) as [p|e1] eqn:Hp.
  - destruct Hin as [->|Hin].
    + rewrite (post_of_file_not_started w f e Hg He) in Hp. discriminate.
    + destruct (IH Hin) as (f' & e' & ? & ? & ? & Hc).
      exists f', e'. simpl. rewrite Hc. simpl. intuition.
  - apply post_of_file_raises in Hp. exists g, e1. simpl. intuition.
Qed.

(** X4: when git cannot be started for a file of the traversal, nothing
    is produced: [find_blog_posts], [generate_rss_feed] and [main] all
    raise the error of a launch that failed. *)
Theorem launch_failure_aborts (w : world) (clock : wall_clock) (f : string)
    (e : exn) :
  In f (enumeration w) -> git_log w f = NotStarted e ->
  (forall rc, e <> CalledProcessError rc) ->
  exists f' e',
    In f' (enumeration w) /\ git_log w f' = NotStarted e' /\
    find_blog_posts w = Raised e' /\
    generate_rss_feed w clock = Raised e' /\
    main w clock = Raised e'.
Proof.
  intros Hin Hg He.
  destruct (collect_raises w (enumeration w) f e Hin Hg He)
    as (f' & e' & Hin' & Hg' & _ & Hc).
  assert (Hf : find_blog_posts w = Raised e').
  { unfold find_blog_posts, enumeration in *.
    destruct (blogs_exists w); [|contradiction]. simpl. now rewrite Hc. }
  exists f', e'. repeat split; auto.
  - unfold generate_rss_feed. now rewrite Hf.
  - unfold main, generate_rss_feed. now rewrite Hf.
Qed.

Lemma launch_failure_aborts_witness :
  exists f' e',
    In f' (enumeration git_missing) /\ git_log git_missing f' = NotStarted e' /\
    find_blog_posts git_missing = Raised e' /\
    generate_rss_feed git_missing (Clock 2025 1 2 10 0 0) = Raised e' /\
    main git_missing (Clock 2025 1 2 10 0 0) = Raised e'.
Proof.
  apply (launch_failure_aborts git_missing (Clock 2025 1 2 10 0 0) "blogs/a.md"
           FileNotFoundError).
  - left. reflexivity.
  - reflexivity.
  - discriminate.
Defined.

Lemma collect_total (w : world) (fs : list string) :
  (forall f, In f fs -> exists rc out, git_log w f = Completed rc out) ->
  exists recs, collect w fs = Ok recs.
Proof.
  induction fs as [|f fs IH]; intros H; [now exists []|].
  destruct (H f (or_introl eq_refl)) as (rc & out & Hg).
  destruct (get_git_date_ran w f rc out Hg) as (d & Hd).
  destruct IH as (recs & Hr); [intros g Hin; apply H; now right|].
  simpl. unfold post_of_file. rewrite Hd. simpl.
  destruct (extract_title_and_description w f). simpl. rewrite Hr.
  now eexists.
Qed.

(** [main] is [main_writing] at a write that succeeds. *)
Lemma main_of_successful_write (w : world) (clock : wall_clock) :
  main w clock = main_writing (fun _ => Ok tt) w clock.
Proof.
  unfold main, main_writing. now destruct (generate_rss_feed w clock).
Qed.

(** X5: when git ran for every file of the traversal, whatever its exit
    statuses and whether or not the documents can be read, there is a
    collection with one record per file and a feed; [main] then fails
    exactly when the write of the feed fails, with the error of the
    write, and else reports the number of files. *)
Theorem run_completes (w : world) (clock : wall_clock) :
  all_started w ->
  exists posts feed,
    find_blog_posts w = Ok posts /\
    List.length posts = List.length (enumeration w) /\
    generate_rss_feed w clock = Ok feed /\
    forall write,
      main_writing write w clock
      = match write feed with
        | Ok _ => Ok (feed, List.length (enumeration w))
        | Raised e => Raised e
        end.
Proof.
  intros H. destruct (collect_total w (enumeration w) H) as (recs & Hc).
  assert (Hf : find_blog_posts w = Ok (sort_reverse sort_key recs)).
  { unfold find_blog_posts, enumeration in *.
    destruct (blogs_exists w); simpl; [now rewrite Hc|].
    simpl in Hc. now injection Hc as <-. }
  assert (Hl : List.length (sort_reverse sort_key recs)
               = List.length (enumeration w)).
  { rewrite sort_reverse_length. apply collect_inv, Forall2_length in Hc.
    now symmetry. }
  eexists _, _. split; [exact Hf|]. split; [exact Hl|].
  split; [unfold generate_rss_feed; rewrite Hf; reflexivity|].
  intros write. unfold main_writing, generate_rss_feed. rewrite Hf.
  cbn [bind]. destruct (write _); cbn [bind]; [|reflexivity].
  now rewrite Hl.
Qed.

Lemma run_completes_witness :
  exists posts feed,
    find_blog_posts second_unreadable = Ok posts /\
    List.length posts = List.length (enumeration second_unreadable) /\
    generate_rss_feed second_unreadable (Clock 2025 1 2 10 0 0) = Ok feed /\
    main_writing (fun _ => Ok tt) second_unreadable (Clock 2025 1 2 10 0 0)
      = Ok (feed, 2%nat) /\
    main_writing disk_full second_unreadable (Clock 2025 1 2 10 0 0)
      = Raised OSError.
Proof.
  destruct (run_completes second_unreadable (Clock 2025 1 2 10 0 0))
    as (posts & feed & H1 & H2 & H3 & H4).
  - intros f _. do 2 eexists. reflexivity.
  - exists posts, feed.
    split; [exact H1|]. split; [exact H2|]. split; [exact H3|].
    split; [exact (H4 (fun _ => Ok tt))|exact (H4 disk_full)].
Defined.

(** ** Plain text and escaping *)

Lemma escape_with_length (s : string) :
  String.length s <= String.length (escape_with true true true s).
Proof.
  induction s as [|c s IH]; [constructor|]. simpl. rewrite length_append.
  unfold escape_char.
  destruct (Ascii.eqb c "&"); [simpl; lia|].
  destruct (Ascii.eqb c "<"); [simpl; lia|].
  destruct (Ascii.eqb c ">"); simpl; lia.
Qed.

Lemma escape_with_same_length (s : string) :
  String.length (escape_with true true true s) = String.length s ->
  plain s = true.
Proof.
  induction s as [|c s IH]; [reflexivity|]. unfold plain in *. simpl.
  rewrite length_append. pose proof (escape_with_length s) as Hl.
  unfold escape_char.
  destruct (Ascii.eqb c "&"); [simpl; lia|].
  destruct (Ascii.eqb c "<"); [simpl; lia|].
  destruct (Ascii.eqb c ">"); [simpl; lia|].
  simpl. intros H. apply IH. lia.
Qed.

Lemma escape_with_plain (s : string) :
  plain s = true -> escape_with true true true s = s.
Proof.
  unfold plain. induction s as [|c s IH]; [reflexivity|]. simpl.
  intros H. apply andb_true_iff in H. destruct H as [Hc Hs].
  rewrite (IH Hs). unfold escape_char.
  apply negb_true_iff in Hc. apply orb_false_iff in Hc. destruct Hc as [Hc Hg].
  apply orb_false_iff in Hc. destruct Hc as [Ha Hl].
  now rewrite Ha, Hl, Hg.
Qed.

(** X6: [escape] never shortens a text, and it leaves a text unchanged
    exactly when the text holds none of [&], [<] and [>]. *)
Theorem escape_plain_text (s : string) :
  String.length s <= String.length (escape s) /\
  (escape s = s <-> plain s = true).
Proof.
  rewrite escape_chars. split; [apply escape_with_length|]. split.
  - intros H. apply escape_with_same_length. now rewrite H.
  - apply escape_with_plain.
Qed.

(** ** The title *)

Lemma stops_at_eol (p : option ascii) (t : string) (cs : list (string * string)) :
  stops not_newline t = true -> at_eol (MState p t cs) = true.
Proof.
  destruct t as [|d t]; [reflexivity|]. unfold at_eol. simpl.
  unfold not_newline. now rewrite negb_involutive.
Qed.

Lemma title_no_match (p : option ascii) (pos : nat) (s : string) :
  heading_at p s = false -> match_at title_re p pos s = None.
Proof.
  unfold heading_at, match_at, title_re. rewrite rmatch_cat.
  change (rmatch Bol ?s ?k) with (if at_bol s then k s else None).
  unfold at_bol. cbn [prev]. fold (bol p).
  destruct (bol p); [|reflexivity]. cbn [andb].
  rewrite rmatch_cat. unfold Char.
  destruct s as [|h [|c s]]; try reflexivity.
  - intros _. rewrite rmatch_chr. now destruct (Ascii.eqb "#" h).
  - rewrite rmatch_chr, (Ascii.eqb_sym h). destruct (Ascii.eqb "#" h);
      [|reflexivity].
    cbn [andb]. intros Hc. unfold Plus at 1.
    now rewrite !rmatch_cat, rmatch_chr, Hc.
Qed.

Lemma title_text_run (q : option ascii) (c : ascii) (body tail : string)
    (cs : list (string * string)) :
  PyStr.forallb not_newline (String c body) = true ->
  stops not_newline tail = true ->
  exists s',
    rmatch (Cat (Group "1" (Plus true (Chr not_newline))) Eol)
           (MState q (String c body ++ tail) cs) Some = Some s' /\
    caps s' = ("1", String c body) :: cs.
Proof.
  intros Hb Ht. cbn [PyStr.forallb] in Hb. apply andb_true_iff in Hb.
  destruct Hb as [Hcn Hb].
  eexists. split.
  - rewrite rmatch_cat, rmatch_group. unfold Plus. cbn [append].
    rewrite rmatch_cat, rmatch_chr, Hcn, rmatch_star.
    apply (star_greedy_run (A:=mstate) not_newline body tail cs _ _ Hb Ht);
      cbn [rest]; [lia|].
    cbn [prev rest caps]. rewrite rmatch_eol, stops_at_eol by exact Ht.
    unfold consumed. cbn [rest].
    change (String c (body ++ tail)) with (String c body ++ tail).
    rewrite take_app_length. reflexivity.
  - reflexivity.
Qed.

Lemma title_match (p : option ascii) (pos : nat) (w0 : ascii) (ws : string)
    (c : ascii) (body tail : string) :
  bol p = true ->
  PyStr.forallb PyStr.isspace (String w0 ws) = true -> PyStr.isspace c = false ->
  PyStr.forallb not_newline (String c body) = true ->
  stops not_newline tail = true ->
  exists m,
    match_at title_re p pos ("#" ++ String w0 ws ++ String c body ++ tail) = Some m /\
    group1 m = String c body.
Proof.
  intros Hp Hws Hc Hb Ht.
  cbn [PyStr.forallb] in Hws. apply andb_true_iff in Hws.
  destruct Hws as [Hw0 Hws].
  destruct (title_text_run (prev_after (Some w0) ws) c body tail [] Hb Ht)
    as (s' & Hs & Hcaps).
  unfold match_at, title_re. rewrite rmatch_cat.
  change (rmatch Bol ?s ?k) with (if at_bol s then k s else None).
  unfold at_bol. cbn [prev]. fold (bol p). rewrite Hp.
  rewrite rmatch_cat. cbn [append]. unfold Char at 1. rewrite rmatch_chr.
  rewrite Ascii.eqb_refl. unfold Plus at 1.
  rewrite !rmatch_cat, rmatch_chr, Hw0, rmatch_star.
  change (String c (body ++ tail)) with (String c body ++ tail).
  rewrite (star_greedy_run (A:=mstate) PyStr.isspace ws (String c body ++ tail) []
             _ s' Hws); cbn [rest].
  - eexists. split; [reflexivity|]. unfold group1, group. cbn [m_groups].
    rewrite Hcaps. reflexivity.
  - cbn [append stops]. now rewrite Hc.
  - lia.
  - exact Hs.
Qed.

Lemma title_search_from (pre : string) (w0 : ascii) (ws : string) (c : ascii)
    (body tail : string) :
  PyStr.forallb PyStr.isspace (String w0 ws) = true -> PyStr.isspace c = false ->
  PyStr.forallb not_newline (String c body) = true ->
  stops not_newline tail = true ->
  forall (p : option ascii) (pos : nat),
  first_heading_from p (pre ++ "#" ++ String w0 ws ++ String c body ++ tail)
    = Some (String.length pre) ->
  exists m,
    search_from title_re p pos
      (pre ++ "#" ++ String w0 ws ++ String c body ++ tail) = Some m /\
    group1 m = String c body.
Proof.
  intros Hws Hc Hb Ht.
  remember ("#" ++ String w0 ws ++ String c body ++ tail) as doc eqn:Hdoc.
  induction pre as [|a pre IH]; intros p pos Hf.
  - change ("" ++ doc) with doc in *.
    assert (Hp : bol p = true).
    { destruct doc as [|x doc]; cbn [first_heading_from] in Hf;
        unfold heading_at in Hf; destruct (bol p); try reflexivity;
        cbn [andb] in Hf; [discriminate|].
      now destruct (first_heading_from (Some x) doc). }
    subst doc.
    destruct (title_match p pos w0 ws c body tail Hp Hws Hc Hb Ht) as (m & Hm & Hg).
    exists m. split; [|exact Hg]. now rewrite search_from_eq, Hm.
  - cbn [append String.length first_heading_from] in *.
    destruct (heading_at p (String a (pre ++ doc))) eqn:Hh; [discriminate|].
    destruct (first_heading_from (Some a) (pre ++ doc)) as [n|] eqn:Hn;
      [|discriminate].
    injection Hf as ->. rewrite search_from_eq, (title_no_match p pos _ Hh).
    now apply IH.
Qed.

Lemma title_search_none (s : string) :
  forall (p : option ascii) (pos : nat),
    first_heading_from p s = None -> search_from title_re p pos s = None.
Proof.
  induction s as [|a s IH]; intros p pos Hf; cbn [first_heading_from] in Hf;
    rewrite search_from_eq;
    destruct (heading_at p _) eqn:Hh; try discriminate;
    rewrite (title_no_match p pos _ Hh); [reflexivity|].
  apply IH. now destruct (first_heading_from (Some a) s).
Qed.

(** X7: at the first place of a document where a line starts with [#] and
    a white-space character, the white space after [#] is skipped, line
    ends included, and the title is the rest of the line reached, trimmed. *)
Theorem heading_title (w : world) (file_path pre : string) (w0 : ascii)
    (ws : string) (c : ascii) (body tail : string) :
  read_text w file_path
    = Ok (pre ++ "#" ++ String w0 ws ++ String c body ++ tail) ->
  first_heading (pre ++ "#" ++ String w0 ws ++ String c body ++ tail)
    = Some (String.length pre) ->
  PyStr.forallb PyStr.isspace (String w0 ws) = true -> PyStr.isspace c = false ->
  PyStr.forallb not_newline (String c body) = true ->
  stops not_newline tail = true ->
  fst (extract_title_and_description w file_path) = PyStr.strip (String c body).
Proof.
  intros Hr Hf Hws Hc Hb Ht.
  destruct (title_search_from pre w0 ws c body tail Hws Hc Hb Ht None 0 Hf)
    as (m & Hm & Hg).
  unfold extract_title_and_description. rewrite Hr. unfold search.
  rewrite Hm, Hg. reflexivity.
Qed.

Lemma heading_title_witness :
  fst (extract_title_and_description with_paragraph "blogs/a.md") = "Title".
Proof.
  apply (heading_title with_paragraph "blogs/a.md" "" " " "" "T" "itle"
           (nl ++ nl ++ "Intro paragraph here." ++ nl ++ nl
            ++ "**Goal:**" ++ "  Learn things. " ++ nl ++ "More." ++ nl));
    reflexivity.
Defined.

(** X8: a document in which no line starts with [#] and a white-space
    character is titled by the stem of its file name. *)
Theorem title_falls_back_to_stem (w : world) (file_path content : string) :
  read_text w file_path = Ok content ->
  first_heading content = None ->
  fst (extract_title_and_description w file_path) = stem file_path.
Proof.
  intros Hr Hf. unfold extract_title_and_description. rewrite Hr.
  unfold search. now rewrite (title_search_none content None 0 Hf).
Qed.

Lemma title_falls_back_to_stem_witness :
  fst (extract_title_and_description bare "blogs/notes.md") = "notes".
Proof.
  apply (title_falls_back_to_stem bare "blogs/notes.md"
           ("## sub heading" ++ nl ++ "- an item" ++ nl)); reflexivity.
Defined.

(** ** The description without a Goal label *)

Lemma find_none_suffix (sub : string) (c : ascii) (s : string) :
  PyStr.find sub (String c s) = None ->
  PyStr.startswith sub (String c s) = false /\ PyStr.find sub s = None.
Proof.
  cbn [PyStr.find]. destruct (PyStr.startswith sub (String c s)); [discriminate|].
  now destruct (PyStr.find sub s).
Qed.

Lemma goal_search_none (s : string) :
  PyStr.find "**Goal:**" s = None ->
  forall (p : option ascii) (pos : nat), search_from goal_re p pos s = None.
Proof.
  assert (Hno : forall p pos t, PyStr.startswith "**Goal:**" t = false ->
                                match_at goal_re p pos t = None).
  { intros p pos t H. unfold match_at, goal_re. rewrite rmatch_cat.
    now rewrite rmatch_lit_fail. }
  induction s as [|c s IH]; intros Hf p pos; rewrite search_from_eq.
  - now rewrite Hno.
  - apply find_none_suffix in Hf. destruct Hf as [Hs Hf].
    rewrite (Hno p pos _ Hs). now apply IH.
Qed.

Lemma paragraph_no_match (p : option ascii) (pos : nat) (s : string) :
  paragraph_at p s = false -> match_at paragraph_re p pos s = None.
Proof.
  unfold paragraph_at, match_at, paragraph_re. rewrite rmatch_cat.
  change (rmatch Bol ?s ?k) with (if at_bol s then k s else None).
  unfold at_bol. cbn [prev]. fold (bol p).
  destruct (bol p); [|reflexivity]. cbn [andb].
  rewrite rmatch_cat. unfold cls.
  destruct s as [|a [|b s]]; try reflexivity.
  - intros _. rewrite rmatch_chr. now destruct (PyStr.in_range _ _ a).
  - rewrite rmatch_chr.
    change (PyStr.in_range (PyStr.code "A") (PyStr.code "Z") a)
      with (PyStr.in_range 65 90 a).
    destruct (PyStr.in_range 65 90 a); [|reflexivity].
    cbn [andb]. intros Hb. unfold Plus at 1.
    now rewrite !rmatch_cat, rmatch_chr, Hb.
Qed.

Lemma findall_none (s : string) :
  forall (p : option ascii) (skip : nat),
    has_paragraph_from p s = false -> findall_from paragraph_re p skip s = [].
Proof.
  induction s as [|c s IH]; intros p skip H; cbn [has_paragraph_from] in H;
    apply orb_false_iff in H; destruct H as [Hp H]; cbn [findall_from].
  - destruct skip; [|reflexivity]. now rewrite (paragraph_no_match p 0 _ Hp).
  - destruct skip; [rewrite (paragraph_no_match p 0 _ Hp)|]; now apply IH.
Qed.

Lemma take_length (n : nat) (s : string) : String.length (PyStr.take n s) <= n.
Proof.
  revert s. induction n as [|n IH]; intros [|c s]; simpl; try lia.
  specialize (IH s). lia.
Qed.

Lemma lines_stop (ls : list string) (tail : string) :
  stops_paragraph tail = true ->
  stops not_newline (lines_text ls ++ tail) = true.
Proof.
  intros Ht. destruct ls as [|l ls]; [|reflexivity].
  destruct tail as [|c t]; [reflexivity|]. cbn in *.
  apply andb_true_iff in Ht. destruct Ht as [Hc _].
  unfold not_newline. now rewrite Hc.
Qed.

(** The greedy loop over the further lines of a paragraph reads them all. *)
Lemma lines_run (ls : list string) (tail : string)
    (cs : list (string * string)) :
  List.forallb line_ok ls = true -> stops_paragraph tail = true ->
  forall (p : option ascii) (fuel : nat),
    String.length (lines_text ls ++ tail) <= fuel ->
    exists q,
      star_loop
        (rmatch (Cat (Char PyStr.newline) (Plus true (Chr not_newline))))
        true fuel (MState p (lines_text ls ++ tail) cs) Some
      = Some (MState q tail cs).
Proof.
  intros Hls Ht. induction ls as [|l ls IH]; intros p fuel Hf.
  - cbn [lines_text append]. destruct fuel as [|fuel]; [now exists p|].
    cbn [star_loop]. exists p.
    replace (rmatch _ (MState p tail cs) _) with (@None mstate); [reflexivity|].
    symmetry. rewrite rmatch_cat. unfold Char.
    destruct tail as [|c t]; [reflexivity|]. cbn [stops_paragraph] in Ht.
    apply andb_true_iff in Ht. destruct Ht as [Hc Ht'].
    rewrite rmatch_chr. unfold PyStr.is_newline in Hc.
    rewrite Ascii.eqb_sym, Hc. unfold Plus. rewrite rmatch_cat.
    now rewrite (rmatch_chr_stops not_newline _ t cs _ Ht').
  - cbn [List.forallb] in Hls. apply andb_true_iff in Hls.
    destruct Hls as [Hl Hls]. unfold line_ok in Hl.
    apply andb_true_iff in Hl. destruct Hl as [Hne Hl].
    destruct l as [|c l]; [discriminate|].
    cbn [PyStr.forallb] in Hl. apply andb_true_iff in Hl.
    destruct Hl as [Hc Hl].
    cbn [lines_text] in *. unfold nl in *. cbn [append] in *.
    rewrite !append_assoc in *. cbn [append String.length] in Hf.
    rewrite length_append in Hf.
    destruct fuel as [|fuel]; [lia|]. cbn [star_loop].
    destruct (IH Hls (prev_after (Some c) l) fuel ltac:(lia)) as (q & Hq).
    exists q.
    rewrite rmatch_cat. unfold Char. rewrite rmatch_chr, Ascii.eqb_refl.
    unfold Plus. rewrite rmatch_cat, rmatch_chr, Hc, rmatch_star.
    rewrite (star_greedy_run (A:=mstate) not_newline l
               (lines_text ls ++ tail) cs _ (MState q tail cs) Hl
               (lines_stop ls tail Ht)); [reflexivity|cbn [rest]; lia|].
    cbn [rest String.length]. rewrite !length_append.
    replace (_ <? _)%nat with true; [exact Hq|].
    symmetry. apply Nat.ltb_lt. lia.
Qed.

Lemma uppercase_not_space (a : ascii) :
  PyStr.in_range 65 90 a = true -> PyStr.isspace a = false.
Proof.
  intros H.
  assert (Hall : forall_ascii (fun c => implb (PyStr.in_range 65 90 c)
                                          (negb (PyStr.isspace c))) = true)
    by (vm_compute; reflexivity).
  pose proof (forall_ascii_sound _ Hall a) as Ha. cbv beta in Ha.
  rewrite H in Ha. now apply negb_true_iff in Ha.
Qed.

(** A paragraph is matched whole where it starts. *)
Lemma paragraph_match (p : option ascii) (a b : ascii) (l1 : string)
    (ls : list string) (tail : string) :
  paragraph_at p (String a (String b l1) ++ lines_text ls ++ tail) = true ->
  PyStr.forallb not_newline l1 = true ->
  List.forallb line_ok ls = true -> stops_paragraph tail = true ->
  exists m,
    match_at paragraph_re p 0 (String a (String b l1) ++ lines_text ls ++ tail)
      = Some m /\
    m_text m = String a (String b l1) ++ lines_text ls.
Proof.
  intros Hp Hl1 Hls Ht. unfold paragraph_at in Hp. cbn [append] in Hp.
  apply andb_true_iff in Hp. destruct Hp as [Hbol Hab].
  apply andb_true_iff in Hab. destruct Hab as [Ha Hb].
  destruct (lines_run ls tail [] Hls Ht (prev_after (Some b) l1)
              (String.length (lines_text ls ++ tail)) (le_n _)) as (q & Hq).
  exists (ReMatch 0 (0 + String.length (String a (String b l1) ++ lines_text ls))
            (String a (String b l1) ++ lines_text ls) []).
  split; [|reflexivity].
  unfold match_at, paragraph_re. rewrite rmatch_cat.
  change (rmatch Bol ?s ?k) with (if at_bol s then k s else None).
  unfold at_bol. cbn [prev]. fold (bol p). rewrite Hbol.
  rewrite rmatch_cat. unfold cls. cbn [append]. rewrite rmatch_chr.
  change (PyStr.in_range (PyStr.code "A") (PyStr.code "Z") a)
    with (PyStr.in_range 65 90 a).
  rewrite Ha. unfold Plus at 1. rewrite !rmatch_cat, rmatch_chr, Hb, rmatch_star.
  rewrite (star_greedy_run (A:=mstate) not_newline l1
             (lines_text ls ++ tail) [] _ (MState q tail []) Hl1
             (lines_stop ls tail Ht)); cbn [rest].
  - cbn [caps]. unfold consumed. cbn [rest].
    change (String a (String b (l1 ++ lines_text ls ++ tail)))
      with (String a (String b l1) ++ (lines_text ls ++ tail)).
    rewrite <- append_assoc, take_app_length. reflexivity.
  - lia.
  - rewrite rmatch_star. exact Hq.
Qed.

Lemma first_paragraph_from_eq (p : option ascii) (s : string) :
  first_paragraph_from p s
  = if paragraph_at p s then Some 0
    else match s with
         | "" => None
         | String c t => option_map S (first_paragraph_from (Some c) t)
         end.
Proof. now destruct s. Qed.

Lemma first_paragraph_here (p : option ascii) (s : string) :
  first_paragraph_from p s = Some 0 -> paragraph_at p s = true.
Proof.
  rewrite first_paragraph_from_eq. destruct (paragraph_at p s); [easy|].
  destruct s as [|c t]; [discriminate|].
  destruct (first_paragraph_from (Some c) t); discriminate.
Qed.

Lemma first_paragraph_later (p : option ascii) (c : ascii) (t : string)
    (n : nat) :
  first_paragraph_from p (String c t) = Some (S n) ->
  paragraph_at p (String c t) = false /\
  first_paragraph_from (Some c) t = Some n.
Proof.
  rewrite first_paragraph_from_eq.
  destruct (paragraph_at p (String c t)); [discriminate|].
  destruct (first_paragraph_from (Some c) t) as [m|]; [|discriminate].
  cbn [option_map]. intros H. injection H as ->. now split.
Qed.

Lemma findall_first (pre doc para : string) :
  (forall p, paragraph_at p doc = true ->
             exists m, match_at paragraph_re p 0 doc = Some m /\ m_text m = para) ->
  forall (p : option ascii),
    first_paragraph_from p (pre ++ doc) = Some (String.length pre) ->
    exists paras, findall_from paragraph_re p 0 (pre ++ doc) = para :: paras.
Proof.
  intros Hdoc. induction pre as [|x pre IH]; intros p Hf.
  - change ("" ++ doc) with doc in *. cbn [String.length] in Hf.
    destruct (Hdoc p (first_paragraph_here p doc Hf)) as (m & Hm & <-).
    destruct doc as [|y doc]; cbn [findall_from]; rewrite Hm; now eexists.
  - cbn [append String.length] in *.
    destruct (first_paragraph_later p x _ _ Hf) as [Hp Hn].
    cbn [findall_from]. rewrite (paragraph_no_match p 0 _ Hp).
    cbn [Nat.sub]. now apply IH.
Qed.

Lemma first_paragraph_capital (pre : string) (a : ascii) (t : string) :
  forall (p : option ascii),
    first_paragraph_from p (pre ++ String a t) = Some (String.length pre) ->
    PyStr.in_range 65 90 a = true.
Proof.
  induction pre as [|x pre IH]; intros p Hf.
  - apply first_paragraph_here in Hf. cbn [append] in Hf.
    unfold paragraph_at in Hf. apply andb_true_iff in Hf.
    destruct Hf as [_ Hf]. destruct t as [|b t]; [discriminate|].
    now apply andb_true_iff in Hf.
  - cbn [append String.length] in Hf.
    destruct (first_paragraph_later p x _ _ Hf) as [_ Hn]. exact (IH _ Hn).
Qed.

(** X9: in a document without the text of the Goal label, the description
    is taken from the first place where a line starts with a letter of
    [A-Z] followed by a further character of the line, wherever the title
    stands: it is the paragraph that starts there, that is the lines up to
    the first empty line or the end of the text, trimmed and cut to its
    first 200 characters. *)
Theorem paragraph_description (w : world) (file_path pre : string)
    (a b : ascii) (l1 : string) (ls : list string) (tail : string) :
  read_text w file_path
    = Ok (pre ++ (String a (String b l1) ++ lines_text ls) ++ tail) ->
  PyStr.find "**Goal:**" (pre ++ (String a (String b l1) ++ lines_text ls) ++ tail)
    = None ->
  first_paragraph (pre ++ (String a (String b l1) ++ lines_text ls) ++ tail)
    = Some (String.length pre) ->
  PyStr.forallb not_newline l1 = true ->
  List.forallb line_ok ls = true -> stops_paragraph tail = true ->
  snd (extract_title_and_description w file_path)
    = PyStr.take 200 (PyStr.strip (String a (String b l1) ++ lines_text ls)) /\
  String.length (snd (extract_title_and_description w file_path)) <= 200.
Proof.
  intros Hr Hf Hfp Hl1 Hls Ht.
  rewrite append_assoc in Hr, Hf, Hfp.
  assert (Ha : PyStr.in_range 65 90 a = true)
    by exact (first_paragraph_capital pre a _ None Hfp).
  destruct (findall_first pre
              (String a (String b l1) ++ lines_text ls ++ tail)
              (String a (String b l1) ++ lines_text ls)) with (p := @None ascii)
    as (paras & Hall); [|exact Hfp|].
  { intros p Hp. now apply paragraph_match. }
  assert (E : snd (extract_title_and_description w file_path)
              = PyStr.take 200
                  (PyStr.strip (String a (String b l1) ++ lines_text ls))).
  { unfold extract_title_and_description. rewrite Hr. unfold search.
    rewrite (goal_search_none _ Hf None 0). unfold findall. rewrite Hall.
    cbn [snd]. unfold PyStr.strip. cbn [append PyStr.lstrip].
    rewrite (uppercase_not_space a Ha).
    destruct (rstrip_keeps_head a (String b l1 ++ lines_text ls)
                (uppercase_not_space a Ha)) as (r & Hr').
    cbn [append] in Hr'. now rewrite Hr'. }
  split; [exact E|]. rewrite E. apply take_length.
Qed.

Lemma paragraph_description_witness :
  snd (extract_title_and_description long_paragraph "blogs/a.md")
    = PyStr.take 200 (PyStr.strip ("Ab" ++ zeros 250 ++ nl ++ "second line")) /\
  String.length (snd (extract_title_and_description long_paragraph "blogs/a.md"))
    <= 200.
Proof.
  apply (paragraph_description long_paragraph "blogs/a.md" ("intro:" ++ nl)
           "A" "b" (zeros 250) ["second line"]
           (nl ++ nl ++ "# Title" ++ nl ++ "Other text." ++ nl));
    vm_compute; reflexivity.
Defined.

(** X10: in a document with neither the text of the Goal label nor a line
    that starts with a letter of [A-Z] and goes on, the description is the
    sentence that names the title. *)
Theorem description_default (w : world) (file_path content : string) :
  read_text w file_path = Ok content ->
  PyStr.find "**Goal:**" content = None ->
  has_paragraph content = false ->
  snd (extract_title_and_description w file_path)
  = "Read the full article: " ++ fst (extract_title_and_description w file_path).
Proof.
  intros Hr Hf Hp. unfold extract_title_and_description. rewrite Hr.
  unfold search. rewrite (goal_search_none content Hf None 0).
  unfold findall. now rewrite (findall_none content None 0 Hp).
Qed.

Lemma description_default_witness :
  snd (extract_title_and_description bare "blogs/notes.md")
  = "Read the full article: "
    ++ fst (extract_title_and_description bare "blogs/notes.md").
Proof.
  apply (description_default bare "blogs/notes.md"
           ("## sub heading" ++ nl ++ "- an item" ++ nl)); reflexivity.
Defined.

(** ** The stem of a file name *)

Lemma split_no_sep (sep : ascii) (n : string) :
  no_char sep n = true -> PyStr.split sep n = [n].
Proof.
  unfold no_char. induction n as [|c n IH]; [reflexivity|]. simpl.
  intros H. apply andb_true_iff in H. destruct H as [Hc Hn].
  apply negb_true_iff in Hc. now rewrite Hc, (IH Hn).
Qed.

Lemma split_last (sep : ascii) (a n : string) :
  no_char sep n = true ->
  exists w ws,
    PyStr.split sep (a ++ String sep n) = w :: ws /\ ws <> [] /\
    List.last ws "" = n.
Proof.
  intros Hn. induction a as [|c a (w & ws & E & Hne & Hl)].
  - simpl. rewrite Ascii.eqb_refl, (split_no_sep sep n Hn).
    exists "", [n]. repeat split. discriminate.
  - simpl. rewrite E. destruct (Ascii.eqb c sep).
    + exists "", (w :: ws). repeat split; [discriminate|].
      destruct ws; [contradiction|exact Hl].
    + exists (String c w), ws. now repeat split.
Qed.

Lemma rfind_suffix (c : ascii) (n suffix : string) :
  no_char c n = true -> rfind_char c suffix = Some 0%nat ->
  rfind_char c (n ++ suffix) = Some (String.length n).
Proof.
  intros Hn Hs. induction n as [|x n IH]; [exact Hs|].
  unfold no_char in *. simpl in Hn. apply andb_true_iff in Hn.
  destruct Hn as [_ Hn]. simpl. now rewrite (IH Hn).
Qed.

Lemma take_app (n t : string) : PyStr.take (String.length n) (n ++ t) = n.
Proof. induction n as [|c n IH]; simpl; [now destruct t|now rewrite IH]. Qed.

(** X11: the stem of [dir/name.md] is [name], for a non-empty [name]
    without [/] and without [.]. *)
Theorem stem_of_markdown_file (dir name : string) :
  name <> "" -> no_char "/" name = true -> no_char "." name = true ->
  stem (dir ++ "/" ++ name ++ ".md") = name.
Proof.
  intros Hne Hs Hd. unfold stem.
  assert (Hs' : no_char "/" (name ++ ".md") = true).
  { unfold no_char in *. now rewrite forallb_append, Hs. }
  destruct (split_last "/" dir (name ++ ".md") Hs') as (w & ws & E & Hn & Hl).
  change (dir ++ "/" ++ name ++ ".md") with (dir ++ String "/" (name ++ ".md")).
  rewrite E. replace (List.last (w :: ws) "") with (name ++ ".md")
    by (destruct ws; [contradiction|now rewrite <- Hl]).
  rewrite (rfind_suffix "." name ".md" Hd eq_refl).
  rewrite length_append. cbn [String.length].
  destruct name as [|c name]; [contradiction|]. cbn [String.length].
  replace ((0 <? S (String.length name))%nat
           && (S (String.length name) <? S (String.length name) + 3 - 1)%nat)
    with true.
  - apply (take_app (String c name)).
  - symmetry. apply andb_true_iff. split; apply Nat.ltb_lt; lia.
Qed.

Lemma stem_of_markdown_file_witness :
  stem ("blogs/2025" ++ "/" ++ "intro" ++ ".md") = "intro".
Proof. apply (stem_of_markdown_file "blogs/2025" "intro"); [discriminate|reflexivity|reflexivity]. Defined.

(** ** Dates as git prints them *)

Lemma pattern_git_date : pattern "%Y-%m-%d %H:%M:%S %z" = Some git_date_re.
Proof. reflexivity. Qed.

Lemma digit_char_mod (d : Z) : PyStr.digit_char d = PyStr.digit_char (d mod 10).
Proof. unfold PyStr.digit_char. now rewrite Z.mod_mod. Qed.

Lemma digit_char_facts (d : Z) :
  PyStr.isdigit (PyStr.digit_char d) = true /\
  (Z.of_N (PyStr.code (PyStr.digit_char d)) - 48 = d mod 10)%Z.
Proof.
  rewrite digit_char_mod.
  pose proof (Z.mod_pos_bound d 10 ltac:(lia)) as H.
  remember (d mod 10)%Z as r eqn:E. clear E.
  assert (Hr : r = Z.of_nat (Z.to_nat r)) by lia. rewrite Hr.
  assert (Hk : (Z.to_nat r < 10)%nat) by lia. revert Hk.
  generalize (Z.to_nat r). intros k Hk.
  do 10 (destruct k as [|k]; [now vm_compute|]). lia.
Qed.

Lemma digit_char_isdigit (d : Z) : PyStr.isdigit (PyStr.digit_char d) = true.
Proof. apply digit_char_facts. Qed.

Lemma digit_class_facts (c : ascii) :
  PyStr.isdigit c = true ->
  PyStr.isspace c = false /\ Ascii.eqb ":" c = false /\ Ascii.eqb c ":" = false.
Proof.
  intros H.
  assert (Hall : forall_ascii (fun c => implb (PyStr.isdigit c)
                   (negb (PyStr.isspace c) && negb (Ascii.eqb ":" c)
                    && negb (Ascii.eqb c ":"))) = true) by (vm_compute; reflexivity).
  pose proof (forall_ascii_sound _ Hall c) as Hc. cbv beta in Hc.
  rewrite H in Hc. cbn [implb] in Hc.
  apply andb_true_iff in Hc. destruct Hc as [Hc H3].
  apply andb_true_iff in Hc. destruct Hc as [H1 H2].
  now rewrite (proj1 (negb_true_iff _) H1), (proj1 (negb_true_iff _) H2),
    (proj1 (negb_true_iff _) H3).
Qed.

Lemma strip_digits (s : string) :
  PyStr.forallb PyStr.isdigit s = true -> PyStr.strip s = s.
Proof.
  intros H. unfold PyStr.strip.
  assert (Hl : PyStr.lstrip s = s).
  { destruct s as [|c s]; [reflexivity|]. simpl in *.
    apply andb_true_iff in H. destruct H as [Hc _].
    now rewrite (proj1 (digit_class_facts c Hc)). }
  rewrite Hl. induction s as [|c s IH]; [reflexivity|].
  simpl in *. apply andb_true_iff in H. destruct H as [Hc Hs].
  rewrite IH; [|exact Hs|].
  - destruct s; [|reflexivity]. now rewrite (proj1 (digit_class_facts c Hc)).
  - destruct s as [|d s]; [reflexivity|]. simpl in *.
    apply andb_true_iff in Hs. destruct Hs as [Hd _].
    now rewrite (proj1 (digit_class_facts d Hd)).
Qed.

Lemma int_pad2 (v : Z) :
  (0 <= v <= 99)%Z ->
  PyStr.int (String (PyStr.digit_char (v / 10)) (String (PyStr.digit_char v) ""))
  = Some v.
Proof.
  intros Hv. unfold PyStr.int.
  rewrite strip_digits by (cbn [PyStr.forallb]; now rewrite !digit_char_isdigit).
  cbn [PyStr.nonempty PyStr.forallb andb]. rewrite !digit_char_isdigit. cbn [andb].
  f_equal. cbn [PyStr.digits_value].
  rewrite (proj2 (digit_char_facts (v / 10))), (proj2 (digit_char_facts v)).
  Z.div_mod_to_equations; lia.
Qed.

Lemma int_pad4 (y : Z) :
  (0 <= y <= 9999)%Z -> PyStr.int (pad4 y) = Some y.
Proof.
  intros Hy. unfold PyStr.int, pad4, PyStr.pad2.
  rewrite strip_digits by (cbn [PyStr.forallb]; now rewrite !digit_char_isdigit).
  cbn [PyStr.nonempty PyStr.forallb andb]. rewrite !digit_char_isdigit. cbn [andb].
  f_equal. cbn [PyStr.digits_value].
  rewrite (proj2 (digit_char_facts (y / 1000))), (proj2 (digit_char_facts (y / 100))),
    (proj2 (digit_char_facts (y / 10))), (proj2 (digit_char_facts y)).
  Z.div_mod_to_equations; lia.
Qed.

(** A group is read when what it holds is read. *)
Lemma group_run {A : Type} (n : string) (r : regex) (w t : string)
    (p p' : option ascii) (cs : list (string * string))
    (k : mstate -> option A) (x : A) :
  (forall (k' : mstate -> option A) (x' : A),
     k' (MState p' t cs) = Some x' ->
     rmatch r (MState p (w ++ t) cs) k' = Some x') ->
  k (MState p' t ((n, w) :: cs)) = Some x ->
  rmatch (Group n r) (MState p (w ++ t) cs) k = Some x.
Proof.
  intros Hr Hk. rewrite rmatch_group. apply Hr.
  cbn [prev rest caps]. unfold consumed. cbn [rest].
  now rewrite take_app_length.
Qed.

(** The two digits of a field in its range are read as the field. *)
Tactic Notation "field_cases" integer(n) constr(m) :=
  let v := fresh "v" in
  let Hv := fresh "Hv" in
  let k := fresh "k" in
  let Hn := fresh "Hn" in
  let Hk := fresh "Hk" in
  intros v Hv;
  assert (Hn : v = Z.of_nat (Z.to_nat v)) by lia; rewrite Hn;
  assert (Hk : (Z.to_nat v < m)%nat) by lia;
  rewrite Hn in Hv; revert Hk Hv; generalize (Z.to_nat v); clear Hn;
  intros k Hk Hv;
  do n (destruct k as [|k];
        [ first [ exfalso; lia
                | intros A p t cs kk x; vm_compute; intros ->; reflexivity ]
        | ]);
  exfalso; lia.

Lemma month_run :
  forall v, (1 <= v <= 12)%Z ->
  forall (A : Type) (p : option ascii) (t : string) (cs : list (string * string))
         (kk : mstate -> option A) (x : A),
    kk (MState (Some (PyStr.digit_char v)) t cs) = Some x ->
    rmatch (inner_re "m") (MState p (PyStr.pad2 v ++ t) cs) kk = Some x.
Proof. field_cases 13 13%nat. Qed.

Lemma day_run :
  forall v, (1 <= v <= 31)%Z ->
  forall (A : Type) (p : option ascii) (t : string) (cs : list (string * string))
         (kk : mstate -> option A) (x : A),
    kk (MState (Some (PyStr.digit_char v)) t cs) = Some x ->
    rmatch (inner_re "d") (MState p (PyStr.pad2 v ++ t) cs) kk = Some x.
Proof. field_cases 32 32%nat. Qed.

Lemma hour_run :
  forall v, (0 <= v <= 23)%Z ->
  forall (A : Type) (p : option ascii) (t : string) (cs : list (string * string))
         (kk : mstate -> option A) (x : A),
    kk (MState (Some (PyStr.digit_char v)) t cs) = Some x ->
    rmatch (inner_re "H") (MState p (PyStr.pad2 v ++ t) cs) kk = Some x.
Proof. field_cases 24 24%nat. Qed.

Lemma minute_run :
  forall v, (0 <= v <= 59)%Z ->
  forall (A : Type) (p : option ascii) (t : string) (cs : list (string * string))
         (kk : mstate -> option A) (x : A),
    kk (MState (Some (PyStr.digit_char v)) t cs) = Some x ->
    rmatch (inner_re "M") (MState p (PyStr.pad2 v ++ t) cs) kk = Some x.
Proof. field_cases 60 60%nat. Qed.

Lemma second_run :
  forall v, (0 <= v <= 59)%Z ->
  forall (A : Type) (p : option ascii) (t : string) (cs : list (string * string))
         (kk : mstate -> option A) (x : A),
    kk (MState (Some (PyStr.digit_char v)) t cs) = Some x ->
    rmatch (inner_re "S") (MState p (PyStr.pad2 v ++ t) cs) kk = Some x.
Proof. field_cases 60 60%nat. Qed.

Lemma tens_below_six (v : Z) :
  (0 <= v <= 59)%Z ->
  PyStr.in_range (PyStr.code "0") (PyStr.code "5") (PyStr.digit_char (v / 10)) = true.
Proof.
  intros Hv.
  assert (Hn : v = Z.of_nat (Z.to_nat v)) by lia. rewrite Hn.
  assert (Hk : (Z.to_nat v < 60)%nat) by lia. revert Hk.
  generalize (Z.to_nat v). clear. intros k Hk.
  do 60 (destruct k as [|k]; [now vm_compute|]). lia.
Qed.

Lemma year_run (A : Type) (y : Z) (p : option ascii) (t : string)
    (cs : list (string * string)) (kk : mstate -> option A) (x : A) :
  kk (MState (Some (PyStr.digit_char y)) t cs) = Some x ->
  rmatch (inner_re "Y") (MState p (pad4 y ++ t) cs) kk = Some x.
Proof.
  intros Hk. change (inner_re "Y") with (Cat digit (Cat digit (Cat digit digit))).
  unfold pad4, PyStr.pad2, digit. cbn [append].
  do 4 (rewrite ?rmatch_cat; rewrite rmatch_chr, digit_char_isdigit;
        cbv beta iota).
  exact Hk.
Qed.

Lemma space_run (A : Type) (p : option ascii) (t : string)
    (cs : list (string * string)) (kk : mstate -> option A) (x : A) :
  stops PyStr.isspace t = true ->
  kk (MState (Some " "%char) t cs) = Some x ->
  rmatch (Plus true space) (MState p (String " " t) cs) kk = Some x.
Proof.
  intros Ht Hk. unfold Plus, space. rewrite rmatch_cat, rmatch_chr.
  change (PyStr.isspace " ") with true. cbv iota. rewrite rmatch_star.
  apply (star_greedy_run (A:=A) PyStr.isspace "" t cs kk x eq_refl Ht);
    [cbn [rest append]; lia|exact Hk].
Qed.

Lemma char_run (A : Type) (c : ascii) (p : option ascii) (t : string)
    (cs : list (string * string)) (kk : mstate -> option A) :
  rmatch (Char c) (MState p (String c t) cs) kk = kk (MState (Some c) t cs).
Proof. unfold Char. now rewrite rmatch_chr, Ascii.eqb_refl. Qed.

Lemma pad2_stops (v : Z) (t : string) : stops PyStr.isspace (PyStr.pad2 v ++ t) = true.
Proof.
  unfold PyStr.pad2. cbn [append stops].
  now rewrite (proj1 (digit_class_facts _ (digit_char_isdigit (v / 10)))).
Qed.

(** The [%z] field of an offset of hours and minutes, at the end of the
    text. *)
Lemma offset_run (sg a b c d : ascii) (p : option ascii)
    (cs : list (string * string)) :
  (Ascii.eqb sg "+" || Ascii.eqb sg "-") = true ->
  PyStr.isdigit a = true -> PyStr.isdigit b = true ->
  PyStr.in_range (PyStr.code "0") (PyStr.code "5") c = true ->
  PyStr.isdigit c = true -> PyStr.isdigit d = true ->
  rmatch (Cat (Group "z" (inner_re "z")) Eps)
    (MState p (String sg (String a (String b (String c (String d ""))))) cs) Some
  = Some (MState (Some d) ""
            (("z", String sg (String a (String b (String c (String d ""))))) :: cs)).
Proof.
  intros Hsg Ha Hb Hc Hc' Hd.
  rewrite rmatch_cat, rmatch_group.
  unfold inner_re. cbn [directive Ascii.eqb Bool.eqb andb].
  rewrite rmatch_alt, rmatch_cat, rmatch_chr. cbv beta. rewrite Hsg.
  unfold digit. rewrite rmatch_cat, rmatch_chr, Ha.
  rewrite rmatch_cat, rmatch_chr, Hb.
  unfold Opt at 1. rewrite rmatch_cat, rmatch_alt. unfold Char at 1.
  rewrite rmatch_chr, (proj1 (proj2 (digit_class_facts c Hc'))).
  change (rmatch Eps ?s ?k) with (k s). cbv beta.
  unfold cls. rewrite rmatch_cat, rmatch_chr, Hc.
  rewrite rmatch_cat, rmatch_chr, Hd.
  reflexivity.
Qed.

Lemma git_date_ranges (g : git_date) :
  git_date_valid g = true ->
  (1 <= g_year g <= 9999 /\ 1 <= g_month g <= 12 /\ 1 <= g_day g <= 31 /\
   0 <= g_hour g <= 23 /\ 0 <= g_minute g <= 59 /\ 0 <= g_second g <= 59 /\
   0 <= g_off_hours g <= 23 /\ 0 <= g_off_minutes g <= 59)%Z.
Proof.
  unfold git_date_valid, valid_date, valid_time. intros H.
  repeat (apply andb_true_iff in H; destruct H as [H ?]).
  repeat match goal with
         | H : (_ <=? _)%Z = true |- _ => apply Z.leb_le in H
         end.
  assert (days_in_month (g_year g) (g_month g) <= 31)%Z.
  { unfold days_in_month. repeat destruct (_ =? _)%Z; cbn [orb];
      try destruct (is_leap _); lia. }
  lia.
Qed.

Lemma git_date_run (g : git_date) :
  git_date_valid g = true ->
  rmatch git_date_re (MState None (git_date_text g) []) Some
  = Some (MState (Some (PyStr.digit_char (g_off_minutes g))) "" (git_date_caps g)).
Proof.
  intros Hv. destruct (git_date_ranges g Hv)
    as (Hy & Hmo & Hd & Hh & Hmi & Hs & Hoh & Hom).
  unfold git_date_re, git_date_text, git_date_caps.
  rewrite rmatch_cat.
  eapply group_run; [intros k' x' Hk'; apply year_run; exact Hk'|].
  cbn [append]. rewrite rmatch_cat, char_run, rmatch_cat.
  eapply group_run; [intros k' x' Hk'; apply (month_run _ Hmo); exact Hk'|].
  cbn [append]. rewrite rmatch_cat, char_run, rmatch_cat.
  eapply group_run; [intros k' x' Hk'; apply (day_run _ Hd); exact Hk'|].
  cbn [append]. rewrite rmatch_cat.
  apply space_run; [apply pad2_stops|].
  rewrite rmatch_cat.
  eapply group_run; [intros k' x' Hk'; apply (hour_run _ Hh); exact Hk'|].
  cbn [append]. rewrite rmatch_cat, char_run, rmatch_cat.
  eapply group_run; [intros k' x' Hk'; apply (minute_run _ Hmi); exact Hk'|].
  cbn [append]. rewrite rmatch_cat, char_run, rmatch_cat.
  eapply group_run; [intros k' x' Hk'; apply (second_run _ Hs); exact Hk'|].
  cbn [append]. rewrite rmatch_cat.
  apply space_run; [now destruct (g_west g)|].
  unfold PyStr.pad2.
  assert (Hsg : forall sg : string, sg = (if g_west g then "-" else "+") ->
                exists c, sg = String c "" /\
                          (Ascii.eqb c "+" || Ascii.eqb c "-") = true).
  { intros sg ->. destruct (g_west g); eexists; split; reflexivity. }
  destruct (Hsg _ eq_refl) as (sg & -> & Hc). cbn [append].
  apply offset_run; auto using digit_char_isdigit, tens_below_six.
Qed.

Lemma parse_z_chars (sg a b c d : ascii) :
  Ascii.eqb sg "Z" = false -> Ascii.eqb c ":" = false ->
  parse_z (String sg (String a (String b (String c (String d "")))))
  = match PyStr.int (String a (String b "")), PyStr.int (String c (String d "")) with
    | Some hours, Some minutes =>
        Some (if Ascii.eqb "-" sg
              then (- ((hours * 3600 + minutes * 60 + 0) * 1000000 + 0))%Z
              else ((hours * 3600 + minutes * 60 + 0) * 1000000 + 0)%Z)
    | _, _ => None
    end.
Proof.
  intros Hsg Hc. unfold parse_z, starts_with_colon_at.
  cbn -[PyStr.int Z.mul Z.add Z.opp]. rewrite Hsg, Hc.
  cbn -[PyStr.int Z.mul Z.add Z.opp].
  change (PyStr.int "000000") with (Some 0%Z). now rewrite andb_true_r.
Qed.

Lemma parse_offset (g : git_date) :
  (0 <= g_off_hours g <= 23)%Z -> (0 <= g_off_minutes g <= 59)%Z ->
  parse_z ((if g_west g then "-" else "+")
           ++ PyStr.pad2 (g_off_hours g) ++ PyStr.pad2 (g_off_minutes g))
  = Some (offset_microseconds g).
Proof.
  intros Hh Hm. unfold offset_microseconds, PyStr.pad2.
  assert (Hc : Ascii.eqb (PyStr.digit_char (g_off_minutes g / 10)) ":" = false)
    by apply (digit_class_facts _ (digit_char_isdigit _)).
  destruct (g_west g); cbn [append].
  - rewrite (parse_z_chars "-" _ _ _ _ eq_refl Hc), !int_pad2 by lia.
    reflexivity.
  - rewrite (parse_z_chars "+" _ _ _ _ eq_refl Hc), !int_pad2 by lia.
    reflexivity.
Qed.

Lemma offset_bound (g : git_date) :
  (0 <= g_off_hours g <= 23)%Z -> (0 <= g_off_minutes g <= 59)%Z ->
  valid_offset (Some (offset_microseconds g)) = true.
Proof.
  intros Hh Hm. unfold valid_offset, offset_microseconds, day_microseconds.
  apply andb_true_iff. split; apply Z.ltb_lt; destruct (g_west g); lia.
Qed.

Lemma format_offset (g : git_date) :
  (0 <= g_off_hours g <= 23)%Z -> (0 <= g_off_minutes g <= 59)%Z ->
  format_z (Some (offset_microseconds g))
  = rfc822_sign g ++ PyStr.pad2 (g_off_hours g) ++ PyStr.pad2 (g_off_minutes g).
Proof.
  intros Hh Hm. unfold format_z, rfc822_sign.
  set (T := (g_off_hours g * 3600 + g_off_minutes g * 60)%Z).
  assert (Ha : Z.abs (offset_microseconds g) = (T * 1000000)%Z)
    by (unfold offset_microseconds, T; destruct (g_west g); lia).
  rewrite Ha, Z.div_mul, Z.mod_mul by lia.
  assert (H3 : (T mod 60 = 0)%Z) by (unfold T; Z.div_mod_to_equations; lia).
  assert (H4 : (T / 3600 = g_off_hours g)%Z)
    by (unfold T; Z.div_mod_to_equations; lia).
  assert (H5 : (T / 60 mod 60 = g_off_minutes g)%Z)
    by (unfold T; Z.div_mod_to_equations; lia).
  rewrite H3, H4, H5. cbn [Z.eqb]. rewrite append_nil_r.
  f_equal. unfold offset_microseconds. fold T.
  destruct (g_west g); cbn [andb].
  - destruct (Z.eqb_spec (g_off_hours g) 0) as [E1|E1];
      destruct (Z.eqb_spec (g_off_minutes g) 0) as [E2|E2]; cbn [andb negb];
      match goal with
      | |- context [(?x <? 0)%Z] => destruct (Z.ltb_spec x 0)
      end; try reflexivity; unfold T in *; lia.
  - match goal with
    | |- context [(?x <? 0)%Z] => destruct (Z.ltb_spec x 0)
    end; [unfold T in *; lia|reflexivity].
Qed.

Lemma consumed_all (p p' : option ascii) (s : string)
    (cs cs' : list (string * string)) :
  consumed (MState p s cs) (MState p' "" cs') = s.
Proof.
  unfold consumed. cbn [rest String.length]. rewrite Nat.sub_0_r.
  induction s as [|c s IH]; simpl; congruence.
Qed.

(** [strptime] reads a date of git into its fields. *)
Lemma strptime_git_date (g : git_date) :
  git_date_valid g = true ->
  strptime (git_date_text g) "%Y-%m-%d %H:%M:%S %z"
  = Some (DT (g_year g) (g_month g) (g_day g)
             (g_hour g) (g_minute g) (g_second g)
             (Some (offset_microseconds g))).
Proof.
  intros Hv. destruct (git_date_ranges g Hv)
    as (Hy & Hmo & Hd & Hh & Hmi & Hs & Hoh & Hom).
  unfold strptime. rewrite pattern_git_date. unfold match_, match_at.
  rewrite (git_date_run g Hv). cbn [m_end]. rewrite consumed_all.
  cbn [Nat.add]. rewrite Nat.eqb_refl. cbn [negb].
  unfold convert, field, group. cbn [m_groups caps].
  change (lookup "Y" (git_date_caps g)) with (Some (pad4 (g_year g))).
  change (lookup "m" (git_date_caps g)) with (Some (PyStr.pad2 (g_month g))).
  change (lookup "d" (git_date_caps g)) with (Some (PyStr.pad2 (g_day g))).
  change (lookup "H" (git_date_caps g)) with (Some (PyStr.pad2 (g_hour g))).
  change (lookup "M" (git_date_caps g)) with (Some (PyStr.pad2 (g_minute g))).
  change (lookup "S" (git_date_caps g)) with (Some (PyStr.pad2 (g_second g))).
  change (lookup "z" (git_date_caps g))
    with (Some ((if g_west g then "-" else "+")
                ++ PyStr.pad2 (g_off_hours g) ++ PyStr.pad2 (g_off_minutes g))).
  cbv iota. rewrite int_pad4 by lia. unfold PyStr.pad2 at 1 2 3 4 5.
  rewrite !int_pad2 by lia. cbv iota.
  rewrite (parse_offset g Hoh Hom). cbn [option_map].
  unfold git_date_valid in Hv. apply andb_true_iff in Hv. destruct Hv as [Hv _].
  now rewrite Hv, (offset_bound g Hoh Hom).
Qed.

Lemma format_git_date (g : git_date) :
  git_date_valid g = true ->
  format_rfc822_date (Some (git_date_text g)) = Some (rfc822_text g).
Proof.
  intros Hv. destruct (git_date_ranges g Hv)
    as (Hy & Hmo & Hd & Hh & Hmi & Hs & Hoh & Hom).
  unfold format_rfc822_date.
  replace (PyStr.nonempty (git_date_text g)) with true by reflexivity.
  cbn [negb]. rewrite (strptime_git_date g Hv).
  cbn [strftime Ascii.eqb Bool.eqb]. unfold format_directive.
  cbn [Ascii.eqb Bool.eqb andb]. cbn [year month day hour minute second utcoffset].
  rewrite (format_offset g Hoh Hom). unfold rfc822_text.
  cbn [append]. rewrite !append_assoc. reflexivity.
Qed.


(** X12: a date in the form git prints, [YYYY-MM-DD HH:MM:SS +HHMM] with
    a real civil date and time and an offset below 24 hours, is always
    converted: the result is the day of the week, the day, the month by
    name, the year, the time and the offset, the sign of a zero offset
    being [+]. *)
Theorem format_rfc822_date_of_git_date (g : git_date) :
  git_date_valid g = true ->
  format_rfc822_date (Some (git_date_text g)) = Some (rfc822_text g).
Proof. exact (format_git_date g). Qed.

Lemma format_rfc822_date_of_git_date_witness :
  format_rfc822_date (Some "2025-10-30 12:45:48 -0530")
  = Some "Thu, 30 Oct 2025 12:45:48 -0530".
Proof.
  exact (format_rfc822_date_of_git_date
           (GitDate 2025 10 30 12 45 48 true 5 30) eq_refl).
Defined.

Lemma rfc822_text_nonempty (g : git_date) : PyStr.nonempty (rfc822_text g) = true.
Proof. unfold rfc822_text. now destruct (day_abbr _). Qed.

(** X13: a record whose date has the form git prints gets an item with
    the converted date, and when it is the first record of the collection
    that date is also the date of the last build. *)
Theorem git_dated_post_is_rendered (p : post) (ps : list post) (g : git_date)
    (clock : wall_clock) :
  date p = Some (git_date_text g) -> git_date_valid g = true ->
  pub_date p = Some (rfc822_text g) /\
  rss_items (p :: ps) = item_xml p (rfc822_text g) :: rss_items ps /\
  last_build_date clock (p :: ps) = Some (rfc822_text g).
Proof.
  intros Hd Hv.
  assert (Ht : truthy (date p) = true) by (rewrite Hd; reflexivity).
  assert (Hp : pub_date p = Some (rfc822_text g)).
  { unfold pub_date. rewrite Ht, Hd. now apply format_git_date. }
  split; [exact Hp|]. split.
  - cbn [rss_items]. rewrite Hp. cbn [truthy show].
    now rewrite rfc822_text_nonempty.
  - unfold last_build_date. rewrite Ht, Hd.
    now apply format_git_date.
Qed.

Lemma git_dated_post_is_rendered_witness :
  pub_date (Post "blogs/c.md" "blogs/c.md" "T" "D" (Some "2025-03-04 08:30:00 +0100"))
  = Some "Tue, 04 Mar 2025 08:30:00 +0100".
Proof.
  exact (proj1 (git_dated_post_is_rendered
                  (Post "blogs/c.md" "blogs/c.md" "T" "D"
                     (Some "2025-03-04 08:30:00 +0100")) []
                  (GitDate 2025 3 4 8 30 0 false 1 0) (Clock 2025 1 1 0 0 0)
                  eq_refl eq_refl)).
Defined.

(** X14: a record whose date text does not end with a digit or with [Z]
    has no publication date and gives no item, like a record without a
    date. *)
Theorem unparsable_date_is_skipped (p : post) (l1 l2 : list post) (s : string)
    (c : ascii) :
  date p = Some s -> PyStr.last s = Some c -> digit_or_Z c = false ->
  pub_date p = None /\
  rss_items (l1 ++ p :: l2)%list = rss_items (l1 ++ l2)%list.
Proof.
  intros Hd Hl Hc.
  assert (Hp : pub_date p = None).
  { unfold pub_date, format_rfc822_date. rewrite Hd.
    destruct (truthy (Some s)); [|reflexivity].
    destruct (negb _); [reflexivity|].
    destruct (strptime _ _) as [dt|] eqn:E; [|reflexivity].
    apply git_date_ends in E. destruct E as (c' & Hl' & Hc').
    rewrite Hl in Hl'. injection Hl' as <-. congruence. }
  split; [exact Hp|].
  rewrite !rss_items_rendered. unfold rendered. rewrite !filter_app.
  cbn [filter]. unfold has_pub_date at 2. now rewrite Hp.
Qed.

Lemma unparsable_date_is_skipped_witness :
  pub_date (Post "blogs/a.md" "blogs/a.md" "T" "D" (Some "2025-01-02 10:00:00 UTC"))
  = None.
Proof.
  exact (proj1 (unparsable_date_is_skipped
                  (Post "blogs/a.md" "blogs/a.md" "T" "D"
                     (Some "2025-01-02 10:00:00 UTC")) [] []
                  "2025-01-02 10:00:00 UTC" "C" eq_refl eq_refl eq_refl)).
Defined.

(** X15: at the first [**Goal:**] label of a document, the white space
    after the label is skipped, line ends included, and the description is
    the rest of the line reached, trimmed: after a label that ends its
    line, the description comes from the next line that holds text. *)
Theorem goal_description_skips_white_space (w : world)
    (file_path pre ws : string) (c : ascii) (body tail : string) :
  read_text w file_path
    = Ok (pre ++ "**Goal:**" ++ ws ++ String c body ++ tail) ->
  PyStr.find "**Goal:**" (pre ++ "**Goal:**" ++ ws ++ String c body ++ tail)
    = Some (String.length pre) ->
  PyStr.forallb PyStr.isspace ws = true -> PyStr.isspace c = false ->
  PyStr.forallb not_newline (String c body) = true ->
  stops not_newline tail = true ->
  snd (extract_title_and_description w file_path) = PyStr.strip (String c body).
Proof.
  intros Hr Hf Hws Hc Hb Ht.
  destruct (goal_search_from pre ws c body tail Hws Hc Hb Ht Hf None 0)
    as (m & Hm & Hg).
  unfold extract_title_and_description. rewrite Hr. unfold search.
  rewrite Hm, Hg. cbn [snd].
  unfold PyStr.strip. cbn [PyStr.lstrip]. rewrite Hc.
  destruct (rstrip_keeps_head c body Hc) as (r & ->). reflexivity.
Qed.

Lemma goal_description_skips_white_space_witness :
  snd (extract_title_and_description
         (World true ["blogs/a.md"] (fun _ => Completed 0 "")
            (fun _ => Ok ("# T" ++ nl ++ "**Goal:**" ++ nl ++ nl
                          ++ "Next line." ++ nl)))
         "blogs/a.md")
  = "Next line.".
Proof.
  apply (goal_description_skips_white_space _ "blogs/a.md" ("# T" ++ nl)
           (nl ++ nl) "N" "ext line." nl); reflexivity.
Defined.
